(** * The Iris prediction service (app.py): model and verified properties

    [app.py] is a Flask application with module-level start-up code that
    loads a pickled classifier, a [POST /predict] handler and a [GET /]
    handler that serves one inlined HTML page.

    The development embeds the Python code shallowly:
    - Python values ([pyval]) as an inductive type, with the operations the
      handler applies to them ([not], [len], [.get], list indexing);
    - exceptions as an explicit [outcome], threaded through a small monad
      whose state (the module globals and a trace of effects) survives a
      raise, as it does in Python;
    - the pieces that live outside the repository (Flask's request parsing,
      numpy's array constructor, the estimator, the clock, [float()] on a
      string) as inputs of the handler or as documented models. *)

From Stdlib Require Import ZArith List String Ascii Bool Lia.
From Stdlib Require Import Floats.PrimFloat Floats.SpecFloat Floats.FloatOps.
From Stdlib Require Import DecimalString.
Import ListNotations.
Open Scope string_scope.
Open Scope Z_scope.
Set Warnings "-register-all,-inexact-float".

(** ** Python values *)

(** The values [request.get_json()] can produce: JSON decoded by Python's
    [json] module.  A [dict] keeps its items in insertion order and holds
    each key once; a [str] is taken as a sequence of one-byte characters. *)
Inductive pyval : Type :=
| PNone
| PBool (b : bool)
| PInt (n : Z)
| PFloat (x : float)
| PStr (s : string)
| PList (items : list pyval)
| PDict (items : list (string * pyval)).

(** Exceptions.  Every value of [exn] stands for an instance of a subclass of
    Python's [Exception]; [exn_msg] is what [str(e)] returns. *)
Inductive exn_class : Type :=
| AttributeError
| TypeError
| ValueError
| IndexError
| OverflowError
| FileNotFoundError
| HTTPException
| OtherError (name : string).

Record exn : Type := Exn { exn_cls : exn_class; exn_msg : string }.

Definition str_exn (e : exn) : string := exn_msg e.

Inductive outcome (A : Type) : Type :=
| Returns (a : A)
| Raises (e : exn).
Arguments Returns {A} a.
Arguments Raises {A} e.

(** [type(v).__name__] *)
Definition type_name (v : pyval) : string :=
  match v with
  | PNone => "NoneType"
  | PBool _ => "bool"
  | PInt _ => "int"
  | PFloat _ => "float"
  | PStr _ => "str"
  | PList _ => "list"
  | PDict _ => "dict"
  end.

(** [bool(v)]: the truth value Python's [not] and [if] test. *)
Definition truthy (v : pyval) : bool :=
  match v with
  | PNone => false
  | PBool b => b
  | PInt n => negb (n =? 0)
  | PFloat x => negb (PrimFloat.eqb x 0%float)
  | PStr s => negb (String.length s =? 0)%nat
  | PList l => negb (List.length l =? 0)%nat
  | PDict d => negb (List.length d =? 0)%nat
  end.

(** [len(v)]: defined on the sized types only. *)
Definition py_len (v : pyval) : outcome Z :=
  match v with
  | PStr s => Returns (Z.of_nat (String.length s))
  | PList l => Returns (Z.of_nat (List.length l))
  | PDict d => Returns (Z.of_nat (List.length d))
  | _ => Raises (Exn TypeError
                   ("object of type '" ++ type_name v ++ "' has no len()"))
  end.

Fixpoint dict_lookup (d : list (string * pyval)) (k : string) : option pyval :=
  match d with
  | [] => None
  | (k', v) :: rest => if String.eqb k' k then Some v else dict_lookup rest k
  end.

(** [v.get(k)]: only a [dict] has the method; a missing key gives [None]. *)
Definition py_get (v : pyval) (k : string) : outcome pyval :=
  match v with
  | PDict d => Returns (match dict_lookup d k with
                        | Some x => x
                        | None => PNone
                        end)
  | _ => Raises (Exn AttributeError
                   ("'" ++ type_name v ++ "' object has no attribute 'get'"))
  end.

(** [l[i]] on a Python list with an integer index: a negative index counts
    from the end, anything outside [-len, len) raises [IndexError]. *)
Definition list_getitem {A : Type} (l : list A) (i : Z) : outcome A :=
  let n := Z.of_nat (List.length l) in
  let j := if i <? 0 then i + n else i in
  if (j <? 0) || (n <=? j) then
    Raises (Exn IndexError "list index out of range")
  else
    match nth_error l (Z.to_nat j) with
    | Some x => Returns x
    | None => Raises (Exn IndexError "list index out of range")
    end.


(** ** numpy *)

(** What [ai_model.predict(...)[0]] can be: a numpy scalar holding a class
    index, of an integer or of a floating-point dtype. *)
Inductive np_scalar : Type :=
| NpInt (n : Z)
| NpFloat (x : float).

Definition np_type_name (x : np_scalar) : string :=
  match x with
  | NpInt _ => "numpy.int64"
  | NpFloat _ => "numpy.float64"
  end.

(** [labels[x]] with a numpy scalar as the subscript: only the integer
    scalars implement [__index__]. *)
Definition list_getitem_np {A : Type} (l : list A) (x : np_scalar) : outcome A :=
  match x with
  | NpInt i => list_getitem l i
  | NpFloat _ =>
      Raises (Exn TypeError
                ("list indices must be integers or slices, not " ++ np_type_name x))
  end.

(** [int(x)] on a float truncates toward zero and rejects NaN and the
    infinities. *)
Definition int_of_float (x : float) : outcome Z :=
  match Prim2SF x with
  | S754_zero _ => Returns 0
  | S754_infinity _ =>
      Raises (Exn OverflowError "cannot convert float infinity to integer")
  | S754_nan => Raises (Exn ValueError "cannot convert float NaN to integer")
  | S754_finite sign m e =>
      let a := if 0 <=? e then Z.pos m * 2 ^ e else Z.pos m / 2 ^ (- e) in
      Returns (if sign then - a else a)
  end.

(** [int(x)] on a numpy scalar. *)
Definition py_int (x : np_scalar) : outcome Z :=
  match x with
  | NpInt n => Returns n
  | NpFloat f => int_of_float f
  end.

(** An array of dtype [float32]: its shape and its cells in row-major order.
    A cell is recorded by the Python scalar numpy cast to [float32]; the
    estimator below is an arbitrary function of the array, so nothing it could
    observe is lost. *)
Record ndarray : Type := NdArray { nd_shape : list nat; nd_data : list pyval }.

(** [a[0]] on the one-dimensional array [predict] returns. *)
Definition first_item (out : list np_scalar) : outcome np_scalar :=
  match out with
  | x :: _ => Returns x
  | [] => Raises (Exn IndexError
                    "index 0 is out of bounds for axis 0 with size 0")
  end.

(** A Python [int] converts to a C double unless it rounds to 2^1024 or
    beyond. *)
Definition int_fits_double (n : Z) : bool :=
  Z.abs n <? 2 ^ 1024 - 2 ^ 970.

(** [str(n)] for an integer. *)
Definition decimal (n : Z) : string := NilZero.string_of_int (Z.to_int n).

(** What shape discovery raises on sub-arrays of different shapes; [np_array]
    completes the message with the shape detected so far. *)
Definition ragged : exn :=
  Exn ValueError
    "setting an array element with a sequence. The requested array has an inhomogeneous shape.".

Fixpoint list_eqb_nat (a b : list nat) : bool :=
  match a, b with
  | [], [] => true
  | x :: a', y :: b' => (x =? y)%nat && list_eqb_nat a' b'
  | _, _ => false
  end.

(** One axis of the array: the sub-arrays must all have the same shape. *)
Fixpoint stack (subs : list (outcome (list nat * list pyval)))
  : outcome (option (list nat) * list pyval) :=
  match subs with
  | [] => Returns (None, [])
  | Raises e :: _ => Raises e
  | Returns (sh, cells) :: rest =>
      match stack rest with
      | Raises e => Raises e
      | Returns (None, _) => Returns (Some sh, cells)
      | Returns (Some sh', cells') =>
          if list_eqb_nat sh sh' then Returns (Some sh, cells ++ cells')%list
          else Raises ragged
      end
  end.

(** Shape discovery: lists are axes, every other value is a cell. *)
Fixpoint discover (v : pyval) : outcome (list nat * list pyval) :=
  match v with
  | PList items =>
      match stack (map discover items) with
      | Raises e => Raises e
      | Returns (None, _) => Returns ([0%nat], [])
      | Returns (Some sh, cells) => Returns (List.length items :: sh, cells)
      end
  | _ => Returns ([], [v])
  end.

(** The most axes an array has ([NPY_MAXDIMS]). *)
Definition NPY_MAXDIMS : nat := 64.

(** The lengths met going down the first element of each list. *)
Fixpoint leftmost_shape (v : pyval) : list nat :=
  match v with
  | PList items =>
      List.length items ::
      match items with
      | x :: _ => leftmost_shape x
      | [] => []
      end
  | _ => []
  end.

(** How many leading axes of [dims] the value and all it holds agree with. *)
Fixpoint conforms (v : pyval) (dims : list nat) {struct v} : nat :=
  match v, dims with
  | PList items, d :: rest =>
      if (List.length items =? d)%nat then
        S (fold_right Nat.min (List.length rest)
             (map (fun x => conforms x rest) items))
      else 0%nat
  | _, _ => 0%nat
  end.

(** [repr] of a tuple of integers. *)
Definition tuple_repr (dims : list nat) : string :=
  match dims with
  | [d] => "(" ++ decimal (Z.of_nat d) ++ ",)"
  | _ =>
      "(" ++ String.concat ", " (map (fun d => decimal (Z.of_nat d)) dims)
          ++ ")"
  end.

(** The [ValueError] of a value that is no rectangular array of at most
    [NPY_MAXDIMS] axes. *)
Definition shape_error (v : pyval) : exn :=
  let n := Nat.min (conforms v (leftmost_shape v)) NPY_MAXDIMS in
  if (n =? NPY_MAXDIMS)%nat then
    Exn ValueError
      "setting an array element with a sequence. The requested array would exceed the maximum number of dimension of 64."
  else
    Exn ValueError
      ("setting an array element with a sequence. The requested array has an inhomogeneous shape after "
         ++ decimal (Z.of_nat n) ++ " dimensions. The detected shape was "
         ++ tuple_repr (firstn n (leftmost_shape v))
         ++ " + inhomogeneous part.").

(** [repr(s)] for a string of one-byte characters: in single quotes, or in
    double quotes when it holds a single quote and no double quote; backslash,
    the quote and the characters that are not printable escaped. *)
Definition hex_digit (n : nat) : ascii :=
  nth n ["0"; "1"; "2"; "3"; "4"; "5"; "6"; "7"; "8"; "9";
         "a"; "b"; "c"; "d"; "e"; "f"]%char "0"%char.

Definition backslash : ascii := ascii_of_nat 92.

Definition repr_char (quote c : ascii) : string :=
  let n := nat_of_ascii c in
  if Ascii.eqb c backslash then String backslash (String backslash EmptyString)
  else if Ascii.eqb c quote then String backslash (String c EmptyString)
  else if (n =? 10)%nat then String backslash "n"
  else if (n =? 13)%nat then String backslash "r"
  else if (n =? 9)%nat then String backslash "t"
  else if ((n <? 32) || (n =? 127) || ((128 <=? n) && (n <=? 160))
           || (n =? 173))%nat then
    String backslash
      (String "x"
         (String (hex_digit (n / 16)) (String (hex_digit (n mod 16))
                                         EmptyString)))
  else String c EmptyString.

Fixpoint has_char (c : ascii) (s : string) : bool :=
  match s with
  | EmptyString => false
  | String c' rest => Ascii.eqb c c' || has_char c rest
  end.

Fixpoint repr_chars (quote : ascii) (s : string) : string :=
  match s with
  | EmptyString => EmptyString
  | String c rest => repr_char quote c ++ repr_chars quote rest
  end.

Definition py_repr (s : string) : string :=
  let quote :=
    if has_char "'" s && negb (has_char (ascii_of_nat 34) s)
    then ascii_of_nat 34 else "'"%char in
  String quote (repr_chars quote s ++ String quote EmptyString).

(** ** The process: module globals, effects, and the monad of the handlers *)

(** The estimator unpickled from [model.joblib]: all the service uses is its
    [predict] method, a function of the input matrix that returns a
    one-dimensional array of class indices or raises. *)
Record model : Type := Model { predict_fn : ndarray -> outcome (list np_scalar) }.

(** Observable effects, in the order they happen. *)
Inductive event : Type :=
| EvAssign (name : string)      (* a module global is bound *)
| EvPrint (line : string)       (* [print] *)
| EvGetJson                     (* [request.get_json()] *)
| EvPredict (input : ndarray)   (* [ai_model.predict(input)] *)
| EvTime.                       (* [time.time()] *)

(** The module globals the handlers read, and the trace of the process. *)
Record process : Type := Process {
  CLASS_LABELS : list string;
  ai_model : option model;
  trace : list event
}.

Definition M (A : Type) : Type := process -> outcome A * process.

Definition ret {A : Type} (a : A) : M A := fun st => (Returns a, st).

Definition raise {A : Type} (e : exn) : M A := fun st => (Raises e, st).

Definition bind {A B : Type} (c : M A) (k : A -> M B) : M B :=
  fun st =>
    match c st with
    | (Returns a, st') => k a st'
    | (Raises e, st') => (Raises e, st')
    end.

(** [try: body  except Exception as e: handler e]; what [body] did before it
    raised stays done. *)
Definition try_except {A : Type} (body : M A) (handler : exn -> M A) : M A :=
  fun st =>
    match body st with
    | (Returns a, st') => (Returns a, st')
    | (Raises e, st') => handler e st'
    end.

Definition lift {A : Type} (o : outcome A) : M A := fun st => (o, st).

Definition emit (ev : event) : M unit :=
  fun st =>
    (Returns tt,
     Process (CLASS_LABELS st) (ai_model st) (trace st ++ [ev])).

Definition read {A : Type} (field : process -> A) : M A :=
  fun st => (Returns (field st), st).

Definition assign_CLASS_LABELS (v : list string) : M unit :=
  fun st =>
    (Returns tt,
     Process v (ai_model st) (trace st ++ [EvAssign "CLASS_LABELS"])).

Definition assign_ai_model (v : option model) : M unit :=
  fun st =>
    (Returns tt,
     Process (CLASS_LABELS st) v (trace st ++ [EvAssign "ai_model"])).

Definition print (line : string) : M unit := emit (EvPrint line).

Declare Scope py_scope.
Delimit Scope py_scope with py.
Notation "x <- c ;; k" := (bind c (fun x => k))
  (at level 61, c at next level, right associativity) : py_scope.
Notation "c ;; k" := (bind c (fun _ => k))
  (at level 61, right associativity) : py_scope.
Open Scope py_scope.

(** Counters over a trace. *)
Definition is_predict (ev : event) : bool :=
  match ev with EvPredict _ => true | _ => false end.

Definition is_get_json (ev : event) : bool :=
  match ev with EvGetJson => true | _ => false end.

Definition is_assign (name : string) (ev : event) : bool :=
  match ev with EvAssign n => String.eqb n name | _ => false end.

Definition is_write (ev : event) : bool :=
  match ev with EvAssign _ | EvPrint _ => true | _ => false end.

Definition count (p : event -> bool) (t : list event) : nat :=
  List.length (filter p t).

(** ** Responses *)

Inductive payload : Type :=
| Json (doc : pyval)     (* [jsonify(doc)] *)
| Html (text : string).

Record response : Type := Response { status : Z; body : payload }.

(** [jsonify(d)] alone is a 200; [jsonify(d), code] carries [code]. *)
Definition jsonify (d : list (string * pyval)) : response :=
  Response 200 (Json (PDict d)).

Definition with_status (r : response) (code : Z) : response :=
  Response code (body r).

(** ** The page served at [/] *)

Definition dq : string := String (ascii_of_nat 34) EmptyString.
Definition nl : string := String (ascii_of_nat 10) EmptyString.
Definition cr : ascii := ascii_of_nat 13.
Definition blank_line : string := EmptyString.

(** The lines of the string literal bound to [html_content] (lines 83-228),
    from the character after the opening quotes to the one before the
    closing quotes; [dq] stands for a double quote. *)
Definition html_lines : list string :=
  [
    blank_line;
    "<!DOCTYPE html>";
    "<html lang=" ++ dq ++ "en" ++ dq ++ ">";
    "<head>";
    "    <meta charset=" ++ dq ++ "UTF-8" ++ dq ++ ">";
    "    <meta name=" ++ dq ++ "viewport" ++ dq ++ " content=" ++ dq ++ "width=device-width, initial-scale=1.0" ++ dq ++ ">";
    "    <title>Model Deployment Demo (Iris)</title>";
    "    <script src=" ++ dq ++ "https://cdn.tailwindcss.com" ++ dq ++ "></script>";
    "    <style>";
    "        body { font-family: 'Inter', sans-serif; background-color: #f7f7f7; }";
    "        .card { box-shadow: 0 10px 25px -5px rgba(0, 0, 0, 0.1), 0 0px 10px -5px rgba(0, 0, 0, 0.04); }";
    "        input[type=" ++ dq ++ "number" ++ dq ++ "]:focus { border-color: #3b82f6; box-shadow: 0 0 0 3px rgba(59, 130, 246, 0.5); }";
    "    </style>";
    "</head>";
    "<body class=" ++ dq ++ "min-h-screen flex items-center justify-center p-4" ++ dq ++ ">";
    blank_line;
    "    <div class=" ++ dq ++ "card w-full max-w-lg bg-white p-8 rounded-xl" ++ dq ++ ">";
    "        <h1 class=" ++ dq ++ "text-3xl font-extrabold text-gray-900 mb-6 text-center" ++ dq ++ ">Iris Flower Classifier</h1>";
    "        <p class=" ++ dq ++ "text-gray-600 mb-8 text-center" ++ dq ++ ">";
    "            Enter the four measurements below to predict the species (Setosa, Versicolor, or Virginica) using the backend model API.";
    "        </p>";
    blank_line;
    "        <div id=" ++ dq ++ "loading-spinner" ++ dq ++ " class=" ++ dq ++ "hidden text-center text-blue-500 mb-4" ++ dq ++ ">";
    "            <svg class=" ++ dq ++ "animate-spin h-6 w-6 mx-auto" ++ dq ++ " xmlns=" ++ dq ++ "http://www.w3.org/2000/svg" ++ dq ++ " fill=" ++ dq ++ "none" ++ dq ++ " viewBox=" ++ dq ++ "0 0 24 24" ++ dq ++ ">";
    "                <circle class=" ++ dq ++ "opacity-25" ++ dq ++ " cx=" ++ dq ++ "12" ++ dq ++ " cy=" ++ dq ++ "12" ++ dq ++ " r=" ++ dq ++ "10" ++ dq ++ " stroke=" ++ dq ++ "currentColor" ++ dq ++ " stroke-width=" ++ dq ++ "4" ++ dq ++ "></circle>";
    "                <path class=" ++ dq ++ "opacity-75" ++ dq ++ " fill=" ++ dq ++ "currentColor" ++ dq ++ " d=" ++ dq ++ "M4 12a8 8 0 018-8V0C5.373 0 0 5.373 0 12h4zm2 5.291A7.962 7.962 0 014 12H0c0 3.042 1.135 5.824 3 7.938l3-2.647z" ++ dq ++ "></path>";
    "            </svg>";
    "            <p class=" ++ dq ++ "mt-2 text-sm" ++ dq ++ ">Predicting...</p>";
    "        </div>";
    blank_line;
    "        <form id=" ++ dq ++ "predictionForm" ++ dq ++ " class=" ++ dq ++ "space-y-4" ++ dq ++ ">";
    "            <!-- Input Fields -->";
    "            <div class=" ++ dq ++ "grid grid-cols-2 gap-4" ++ dq ++ ">";
    "                <div>";
    "                    <label for=" ++ dq ++ "sepal_length" ++ dq ++ " class=" ++ dq ++ "block text-sm font-medium text-gray-700" ++ dq ++ ">Sepal Length (cm)</label>";
    "                    <input type=" ++ dq ++ "number" ++ dq ++ " step=" ++ dq ++ "0.1" ++ dq ++ " id=" ++ dq ++ "sepal_length" ++ dq ++ " value=" ++ dq ++ "5.1" ++ dq ++ " required class=" ++ dq ++ "mt-1 block w-full rounded-md border-gray-300 shadow-sm p-3 border" ++ dq ++ ">";
    "                </div>";
    "                <div>";
    "                    <label for=" ++ dq ++ "sepal_width" ++ dq ++ " class=" ++ dq ++ "block text-sm font-medium text-gray-700" ++ dq ++ ">Sepal Width (cm)</label>";
    "                    <input type=" ++ dq ++ "number" ++ dq ++ " step=" ++ dq ++ "0.1" ++ dq ++ " id=" ++ dq ++ "sepal_width" ++ dq ++ " value=" ++ dq ++ "3.5" ++ dq ++ " required class=" ++ dq ++ "mt-1 block w-full rounded-md border-gray-300 shadow-sm p-3 border" ++ dq ++ ">";
    "                </div>";
    "                <div>";
    "                    <label for=" ++ dq ++ "petal_length" ++ dq ++ " class=" ++ dq ++ "block text-sm font-medium text-gray-700" ++ dq ++ ">Petal Length (cm)</label>";
    "                    <input type=" ++ dq ++ "number" ++ dq ++ " step=" ++ dq ++ "0.1" ++ dq ++ " id=" ++ dq ++ "petal_length" ++ dq ++ " value=" ++ dq ++ "1.4" ++ dq ++ " required class=" ++ dq ++ "mt-1 block w-full rounded-md border-gray-300 shadow-sm p-3 border" ++ dq ++ ">";
    "                </div>";
    "                <div>";
    "                    <label for=" ++ dq ++ "petal_width" ++ dq ++ " class=" ++ dq ++ "block text-sm font-medium text-gray-700" ++ dq ++ ">Petal Width (cm)</label>";
    "                    <input type=" ++ dq ++ "number" ++ dq ++ " step=" ++ dq ++ "0.1" ++ dq ++ " id=" ++ dq ++ "petal_width" ++ dq ++ " value=" ++ dq ++ "0.2" ++ dq ++ " required class=" ++ dq ++ "mt-1 block w-full rounded-md border-gray-300 shadow-sm p-3 border" ++ dq ++ ">";
    "                </div>";
    "            </div>";
    blank_line;
    "            <button type=" ++ dq ++ "submit" ++ dq ++ " id=" ++ dq ++ "submitButton" ++ dq ++ " class=" ++ dq ++ "w-full py-3 px-4 border border-transparent rounded-md shadow-lg text-sm font-medium text-white bg-blue-600 hover:bg-blue-700 focus:outline-none focus:ring-2 focus:ring-offset-2 focus:ring-blue-500 transition duration-150 ease-in-out" ++ dq ++ ">";
    "                Get Prediction";
    "            </button>";
    "        </form>";
    blank_line;
    "        <!-- Output Display -->";
    "        <div id=" ++ dq ++ "resultContainer" ++ dq ++ " class=" ++ dq ++ "mt-8 pt-6 border-t border-gray-200" ++ dq ++ ">";
    "            <h2 class=" ++ dq ++ "text-xl font-semibold text-gray-800 mb-3" ++ dq ++ ">Model Result:</h2>";
    "            <div id=" ++ dq ++ "predictionOutput" ++ dq ++ " class=" ++ dq ++ "text-lg font-bold text-gray-900 bg-gray-50 p-4 rounded-lg border border-gray-100" ++ dq ++ ">";
    "                Awaiting input...";
    "            </div>";
    "            <div id=" ++ dq ++ "errorOutput" ++ dq ++ " class=" ++ dq ++ "text-sm text-red-600 mt-2 hidden" ++ dq ++ "></div>";
    "        </div>";
    "    </div>";
    blank_line;
    "    <!-- The critical JavaScript section that handles API communication -->";
    "    <script>";
    "        document.getElementById('predictionForm').addEventListener('submit', async function(e) {";
    "            e.preventDefault();";
    "            ";
    "            // Get elements";
    "            const form = e.target;";
    "            const submitButton = document.getElementById('submitButton');";
    "            const loadingSpinner = document.getElementById('loading-spinner');";
    "            const predictionOutput = document.getElementById('predictionOutput');";
    "            const errorOutput = document.getElementById('errorOutput');";
    blank_line;
    "            // 1. Gather input data";
    "            const features = [";
    "                parseFloat(form.sepal_length.value),";
    "                parseFloat(form.sepal_width.value),";
    "                parseFloat(form.petal_length.value),";
    "                parseFloat(form.petal_width.value)";
    "            ];";
    blank_line;
    "            // 2. Prepare UI for request";
    "            submitButton.disabled = true;";
    "            submitButton.textContent = " ++ dq ++ "Processing..." ++ dq ++ ";";
    "            loadingSpinner.classList.remove('hidden');";
    "            predictionOutput.textContent = " ++ dq ++ "Sending data to model..." ++ dq ++ ";";
    "            errorOutput.classList.add('hidden');";
    blank_line;
    "            try {";
    "                // 3. Send data to the Flask API endpoint using fetch";
    "                // IMPORTANT: Since the Flask app serves the page, the API path is relative.";
    "                const response = await fetch('/predict', {";
    "                    method: 'POST',";
    "                    headers: {";
    "                        'Content-Type': 'application/json'";
    "                    },";
    "                    body: JSON.stringify({ features: features })";
    "                });";
    blank_line;
    "                // 4. Handle HTTP errors";
    "                if (!response.ok) {";
    "                    const errorJson = await response.json();";
    "                    throw new Error(errorJson.error || `HTTP error! Status: ${response.status}`);";
    "                }";
    blank_line;
    "                // 5. Process successful response";
    "                const result = await response.json();";
    "                ";
    "                if (result.success) {";
    "                    // Update the prediction display";
    "                    predictionOutput.classList.remove('text-red-600');";
    "                    predictionOutput.classList.add('text-green-600');";
    "                    predictionOutput.innerHTML = `";
    "                        <span class=" ++ dq ++ "text-2xl" ++ dq ++ ">${result.predicted_label}</span> ";
    "                        <span class=" ++ dq ++ "text-gray-500 text-sm" ++ dq ++ ">(Class Index: ${result.prediction_index})</span>";
    "                    `;";
    "                } else {";
    "                    // Handle API internal error structure";
    "                    throw new Error(result.error || 'An unknown error occurred in the API.');";
    "                }";
    blank_line;
    "            } catch (error) {";
    "                // 6. Handle network or parsing errors";
    "                console.error(" ++ dq ++ "Fetch error:" ++ dq ++ ", error);";
    "                predictionOutput.classList.remove('text-green-600');";
    "                predictionOutput.classList.add('text-red-600');";
    "                predictionOutput.textContent = " ++ dq ++ "Prediction Failed" ++ dq ++ ";";
    "                errorOutput.textContent = `Error: ${error.message}`;";
    "                errorOutput.classList.remove('hidden');";
    "            } finally {";
    "                // 7. Reset UI state";
    "                submitButton.disabled = false;";
    "                submitButton.textContent = " ++ dq ++ "Get Prediction" ++ dq ++ ";";
    "                loadingSpinner.classList.add('hidden');";
    "            }";
    "        });";
    "    </script>";
    blank_line;
    "</body>";
    "</html>";
    "    "
  ].

Definition html_content : string := String.concat nl html_lines.

(** Jinja2 copies a template that holds none of its opening tags and no
    carriage return to the output, less one final newline. *)
Fixpoint plain_template (src : string) : bool :=
  match src with
  | EmptyString => true
  | String c rest =>
      if Ascii.eqb c cr then false
      else if Ascii.eqb c "{" then
        match rest with
        | String d _ =>
            if Ascii.eqb d "{" || Ascii.eqb d "%" || Ascii.eqb d "#" then false
            else plain_template rest
        | EmptyString => true
        end
      else plain_template rest
  end.

Fixpoint drop_final_newline (src : string) : string :=
  match src with
  | EmptyString => EmptyString
  | String c rest =>
      match rest with
      | EmptyString => if Ascii.eqb c (ascii_of_nat 10) then EmptyString else src
      | String _ _ => String c (drop_final_newline rest)
      end
  end.

(** ** app.py *)

(** [MODEL_FILE = 'model.joblib'] *)
Definition MODEL_FILE : string := "model.joblib".

(** The list bound to [CLASS_LABELS] at line 14. *)
Definition iris_labels : list string := ["Setosa"; "Versicolor"; "Virginica"].

(** What the start-up code sees of the machine: whether a path exists and what
    [joblib.load] does with it. *)
Record host : Type := Host {
  path_exists : string -> bool;
  joblib_load : string -> outcome model
}.

(** The namespace before the module body has run. *)
Definition blank : process := Process [] None [].

Section App.

(** [float(s)] accepts [s]: numpy casts a string cell with it, and raises
    [ValueError] where it does not. *)
Variable float_str : string -> bool.

(** Jinja2 on a template that uses its tags. *)
Variable jinja_render : string -> outcome string.

(** The cast of one cell to [float32]; [None] becomes NaN. *)
Definition cast_cell (v : pyval) : outcome pyval :=
  match v with
  | PNone | PBool _ | PFloat _ => Returns v
  | PInt n =>
      if int_fits_double n then Returns v
      else Raises (Exn OverflowError "int too large to convert to float")
  | PStr s =>
      if float_str s then Returns v
      else Raises (Exn ValueError
                     ("could not convert string to float: " ++ py_repr s))
  | PList _ | PDict _ =>
      Raises (Exn TypeError
                ("float() argument must be a string or a real number, not '"
                   ++ type_name v ++ "'"))
  end.

Fixpoint cast_cells (cells : list pyval) : outcome (list pyval) :=
  match cells with
  | [] => Returns []
  | c :: rest =>
      match cast_cell c with
      | Raises e => Raises e
      | Returns c' =>
          match cast_cells rest with
          | Raises e => Raises e
          | Returns rest' => Returns (c' :: rest')
          end
      end
  end.

(** [np.array(v, dtype=np.float32)] *)
Definition np_array (v : pyval) : outcome ndarray :=
  match discover v with
  | Raises _ => Raises (shape_error v)
  | Returns (sh, cells) =>
      if (NPY_MAXDIMS <? List.length sh)%nat then Raises (shape_error v)
      else
        match cast_cells cells with
        | Raises e => Raises e
        | Returns cells' => Returns (NdArray sh cells')
        end
  end.

(** Lines 19-30: the model is loaded once, when the module is imported. *)
Definition load_model (h : host) : M unit :=
  try_except
    (_ <- (if negb (path_exists h MODEL_FILE) then
             raise (Exn FileNotFoundError
                      ("Model file '" ++ MODEL_FILE
                         ++ "' not found. Please run 'create_model.py' first."))
           else ret tt) ;;
     m <- lift (joblib_load h MODEL_FILE) ;;
     assign_ai_model (Some m) ;;
     print ("Successfully loaded model from " ++ MODEL_FILE))
    (fun e =>
       assign_ai_model None ;;
       print ("Error loading model: " ++ str_exn e) ;;
       print "The API will not function until the model is correctly saved.").

(** The module body, up to the route definitions. *)
Definition module_init (h : host) : M unit :=
  assign_CLASS_LABELS iris_labels ;;
  load_model h.

(** [request.get_json()]: the request is given by what this call does, the
    decoded body or the exception Flask raises (no JSON content type, or a
    body that is not JSON). *)
Definition get_json (request : outcome pyval) : M pyval :=
  emit EvGetJson ;; lift request.

(** [m.predict(input_array)] *)
Definition call_predict (m : model) (input_array : ndarray)
  : M (list np_scalar) :=
  emit (EvPredict input_array) ;; lift (predict_fn m input_array).

(** [int(time.time())], with [now] the clock's reading in whole seconds. *)
Definition unix_time (now : Z) : M Z := emit EvTime ;; ret now.

(** [not features or len(features) != 4] *)
Definition invalid_features (features : pyval) : outcome bool :=
  if negb (truthy features) then Returns true
  else match py_len features with
       | Raises e => Raises e
       | Returns n => Returns (negb (n =? 4))
       end.

(** Lines 41-65: the body of the [try]. *)
Definition predict_try (m : model) (request : outcome pyval) (now : Z)
  : M response :=
  data <- get_json request ;;
  features <- lift (py_get data "features") ;;
  bad <- lift (invalid_features features) ;;
  if bad then
    ret (with_status
           (jsonify [("error",
                      PStr "Invalid input: features must be a list of 4 numerical values.")])
           400)
  else
    input_array <- lift (np_array (PList [features])) ;;
    out <- call_predict m input_array ;;
    prediction_index <- lift (first_item out) ;;
    labels <- read CLASS_LABELS ;;
    predicted_label <- lift (list_getitem_np labels prediction_index) ;;
    index_int <- lift (py_int prediction_index) ;;
    timestamp <- unix_time now ;;
    ret (jsonify [("success", PBool true);
                  ("prediction_index", PInt index_int);
                  ("predicted_label", PStr predicted_label);
                  ("timestamp", PInt timestamp)]).

(** Lines 67-72: the [except Exception as e] clause. *)
Definition predict_except (e : exn) : M response :=
  ret (with_status
         (jsonify [("success", PBool false);
                   ("error",
                    PStr ("Prediction failed due to server error: "
                            ++ str_exn e))])
         500).

(** [POST /predict].  A loaded estimator is a true value, [None] a false
    one. *)
Definition predict (request : outcome pyval) (now : Z) : M response :=
  handle <- read ai_model ;;
  match handle with
  | None =>
      ret (with_status
             (jsonify [("error", PStr "Model not loaded on server.")]) 503)
  | Some m => try_except (predict_try m request now) predict_except
  end.

(** [POST /predict] for any object [joblib.load] may have returned.  The test
    [not ai_model] of line 37 asks the object for its truth value, before the
    [try]: [truth m] is what that does, a boolean or the exception the
    object's [__bool__] or [__len__] raises.  An object that defines neither,
    as a fitted estimator, is true, and [predict] above is this handler for
    such objects. *)
Definition predict_view (truth : model -> outcome bool)
    (request : outcome pyval) (now : Z) : M response :=
  handle <- read ai_model ;;
  match handle with
  | None =>
      ret (with_status
             (jsonify [("error", PStr "Model not loaded on server.")]) 503)
  | Some m =>
      is_true <- lift (truth m) ;;
      if negb is_true then
        ret (with_status
               (jsonify [("error", PStr "Model not loaded on server.")]) 503)
      else try_except (predict_try m request now) predict_except
  end.

(** [render_template_string(source)], called without context variables. *)
Definition render_template_string (source : string) : M string :=
  if plain_template source then ret (drop_final_newline source)
  else lift (jinja_render source).

(** [GET /] *)
Definition index : M response :=
  page <- render_template_string html_content ;;
  ret (Response 200 (Html page)).

End App.

(** ** The handler read as a function *)

(** [step st evs]: the process [st] after the events [evs], globals as they
    were. *)
Definition step (st : process) (evs : list event) : process :=
  Process (CLASS_LABELS st) (ai_model st) (trace st ++ evs).

(** The JSON documents of the three error answers and of the success. *)
Definition unavailable : response :=
  Response 503 (Json (PDict [("error", PStr "Model not loaded on server.")])).

Definition invalid_input : response :=
  Response 400
    (Json (PDict [("error",
                   PStr "Invalid input: features must be a list of 4 numerical values.")])).

Definition server_error (e : exn) : response :=
  Response 500
    (Json (PDict [("success", PBool false);
                  ("error",
                   PStr ("Prediction failed due to server error: "
                           ++ exn_msg e))])).

Definition success (index : Z) (label : string) (now : Z) : response :=
  Response 200
    (Json (PDict [("success", PBool true);
                  ("prediction_index", PInt index);
                  ("predicted_label", PStr label);
                  ("timestamp", PInt now)])).

Section Reading.

Variable float_str : string -> bool.

(** Lines 51-54 as a function of the features: the class index the model
    predicts for them. *)
Definition predicted_index (m : model) (features : pyval)
  : outcome np_scalar :=
  match np_array float_str (PList [features]) with
  | Raises e => Raises e
  | Returns input_array =>
      match predict_fn m input_array with
      | Raises e => Raises e
      | Returns out => first_item out
      end
  end.

(** The handler with its [try] opened up: what it answers and which events
    it adds, by the stage at which the request stops. *)
Definition answer (labels : list string) (m : model)
    (request : outcome pyval) (now : Z) : response * list event :=
  match request with
  | Raises e => (server_error e, [EvGetJson])
  | Returns data =>
      match py_get data "features" with
      | Raises e => (server_error e, [EvGetJson])
      | Returns features =>
          match invalid_features features with
          | Raises e => (server_error e, [EvGetJson])
          | Returns true => (invalid_input, [EvGetJson])
          | Returns false =>
              match np_array float_str (PList [features]) with
              | Raises e => (server_error e, [EvGetJson])
              | Returns a =>
                  let called := [EvGetJson; EvPredict a] in
                  match predict_fn m a with
                  | Raises e => (server_error e, called)
                  | Returns out =>
                      match first_item out with
                      | Raises e => (server_error e, called)
                      | Returns x =>
                          match list_getitem_np labels x with
                          | Raises e => (server_error e, called)
                          | Returns label =>
                              match py_int x with
                              | Raises e => (server_error e, called)
                              | Returns i =>
                                  (success i label now, (called ++ [EvTime])%list)
                              end
                          end
                      end
                  end
              end
          end
      end
  end.

End Reading.

(** A JSON number, decoded: an [int] or a [float]. *)
Definition is_number (v : pyval) : bool :=
  match v with
  | PInt _ | PFloat _ => true
  | _ => false
  end.

(** A number numpy casts to [float32]: a [float], or an [int] in the range of
    a double. *)
Definition castable_number (v : pyval) : bool :=
  match v with
  | PInt n => int_fits_double n
  | PFloat _ => true
  | _ => false
  end.

(** ** Sample inputs, for the instances below *)

(** A recogniser of plain decimals ([12], [3.5]): enough of [float()] to run
    the instances. *)
Fixpoint digits_then (dot_seen : bool) (s : string) : bool :=
  match s with
  | EmptyString => true
  | String c rest =>
      if Ascii.eqb c "." then negb dot_seen && digits_then true rest
      else ((48 <=? nat_of_ascii c) && (nat_of_ascii c <=? 57))%nat
           && digits_then dot_seen rest
  end.

Definition plain_decimal (s : string) : bool :=
  match s with
  | EmptyString => false
  | String c rest => negb (String.eqb s ".") && digits_then false s
  end.

(** An estimator that answers every input with the class index [x]. *)
Definition constant_model (x : np_scalar) : model :=
  Model (fun _ => Returns [x]).

(** An estimator whose [predict] raises. *)
Definition broken_model (e : exn) : model := Model (fun _ => Raises e).

(** A machine on which [model.joblib] exists and unpickles to [m]. *)
Definition good_host (m : model) : host :=
  Host (fun _ => true) (fun _ => Returns m).

(** A machine without the file. *)
Definition bare_host : host :=
  Host (fun _ => false)
       (fun _ => Raises (Exn FileNotFoundError "No such file or directory")).

(** The process once the module body has run on [h]. *)
Definition boot (h : host) : process := snd (module_init h blank).

Definition post (features : pyval) : outcome pyval :=
  Returns (PDict [("features", features)]).

(** The values the page's form is pre-filled with. *)
Definition default_features : pyval :=
  PList [PFloat 5.1; PFloat 3.5; PFloat 1.4; PFloat 0.2].

(** The states the process goes through: the module body runs once, then
    requests are served one after the other. *)
Inductive reachable (float_str : string -> bool)
    (jinja_render : string -> outcome string) : process -> Prop :=
| reach_boot (h : host) : reachable float_str jinja_render (boot h)
| reach_predict (st : process) (request : outcome pyval) (now : Z) :
    reachable float_str jinja_render st ->
    reachable float_str jinja_render (snd (predict float_str request now st))
| reach_index (st : process) :
    reachable float_str jinja_render st ->
    reachable float_str jinja_render (snd (index jinja_render st)).

(** ** Serving *)

(** The two routes: [POST /predict] with the request as [get_json] sees it
    and the clock's reading, and [GET /]. *)
Inductive call : Type :=
| PostPredict (request : outcome pyval) (now : Z)
| GetIndex.

Definition handle (float_str : string -> bool)
    (jinja_render : string -> outcome string) (c : call) : M response :=
  match c with
  | PostPredict request now => predict float_str request now
  | GetIndex => index jinja_render
  end.

(** The calls served one after the other, with what each view function gave. *)
Fixpoint serve (float_str : string -> bool)
    (jinja_render : string -> outcome string) (calls : list call)
    (st : process) : list (outcome response) * process :=
  match calls with
  | [] => ([], st)
  | c :: rest =>
      let (o, st') := handle float_str jinja_render c st in
      let (os, st'') := serve float_str jinja_render rest st' in
      (o :: os, st'')
  end.

(** A truthy value without a length: [True] or a non-zero number. *)
Definition unsized (v : pyval) : bool :=
  match v with
  | PBool _ | PInt _ | PFloat _ => truthy v
  | _ => false
  end.

(** A cell numpy casts to [float32] without raising, as [cast_cell] has it:
    [None], a [bool], a [float], an [int] in the range of a double, a string
    [float()] accepts. *)
Definition castable_cell (float_str : string -> bool) (v : pyval) : bool :=
  match v with
  | PNone | PBool _ | PFloat _ => true
  | PInt n => int_fits_double n
  | PStr s => float_str s
  | _ => false
  end.

(** The features of a decoded body, as [data.get('features')] reads them off
    an object. *)
Definition features_of (d : list (string * pyval)) : pyval :=
  match dict_lookup d "features" with
  | Some features => features
  | None => PNone
  end.

(** ** The page's script *)

(** The script of [html_content] (lines 150-224): the [submit] listener of
    the form.  A JavaScript value read from JSON is a [pyval], [None] standing
    for [undefined]; a thrown object is kept by its [message]. *)

Inductive thrown (A : Type) : Type :=
| Value (a : A)
| Threw (message : string).
Arguments Value {A} a.
Arguments Threw {A} message.

(** What is left to the browser: [parseFloat]; the digits [JSON.stringify]
    writes for an integral number beyond 2^53; [String(v)] for a value that is
    neither a string, a boolean, [null], [undefined], an object nor a small
    integer; the message of the [TypeError] for reading a property of
    [null]; the message of the [SyntaxError] of [response.json()] on a body
    that is not JSON. *)
Record browser : Type := Browser {
  parse_float : string -> float;
  written_integer : float -> Z;
  other_text : pyval -> string;
  null_member_text : string -> string;
  not_json_text : string -> string
}.

(** The integer a finite number is, when it is one. *)
Definition js_integer (x : float) : option Z :=
  match Prim2SF x with
  | S754_zero _ => Some 0
  | S754_finite sign m e =>
      let signed (a : Z) := if sign then - a else a in
      if 0 <=? e then Some (signed (Z.pos m * 2 ^ e))
      else if Z.pos m mod 2 ^ (- e) =? 0 then
        Some (signed (Z.pos m / 2 ^ (- e)))
      else None
  | _ => None
  end.

(** One number of the request body, as the server's JSON decoder reads what
    [JSON.stringify] wrote: [null] for NaN and the infinities, an [int] for an
    integral number below 10^21 (written without point or exponent), a
    [float] otherwise. *)
Definition sent_number (b : browser) (x : float) : pyval :=
  match Prim2SF x with
  | S754_nan | S754_infinity _ => PNone
  | _ =>
      match js_integer x with
      | Some n =>
          if Z.abs n <=? 2 ^ 53 then PInt n
          else if Z.abs n <? 10 ^ 21 then PInt (written_integer b x)
          else PFloat x
      | None => PFloat x
      end
  end.

(** The [value]s of the four inputs of the form. *)
Record form : Type := Form {
  sepal_length : string;
  sepal_width : string;
  petal_length : string;
  petal_width : string
}.

(** [JSON.stringify({ features: features })], as the server decodes it. *)
Definition request_body (b : browser) (f : form) : pyval :=
  PDict [("features",
          PList [sent_number b (parse_float b (sepal_length f));
                 sent_number b (parse_float b (sepal_width f));
                 sent_number b (parse_float b (petal_length f));
                 sent_number b (parse_float b (petal_width f))])].

(** How [fetch] and [response.json()] end: the promise of [fetch] is rejected,
    or there is a response whose body is JSON or is not. *)
Inductive parsed : Type :=
| BodyJson (doc : pyval)
| BodyNotJson (message : string).

Inductive fetched : Type :=
| FetchRejected (message : string)
| FetchResponse (code : Z) (content : parsed).

(** [response.ok] *)
Definition response_ok (code : Z) : bool := (200 <=? code) && (code <=? 299).

(** [v.k] for a key that no prototype defines. *)
Definition js_member (b : browser) (v : pyval) (k : string)
  : thrown (option pyval) :=
  match v with
  | PNone => Threw (null_member_text b k)
  | PDict d => Value (dict_lookup d k)
  | _ => Value None
  end.

(** The truth value of [if (v)] and [v || w]. *)
Definition js_truthy (v : option pyval) : bool :=
  match v with
  | None | Some PNone => false
  | Some (PBool t) => t
  | Some (PInt n) => negb (n =? 0)
  | Some (PFloat x) => negb (PrimFloat.eqb x 0%float) && PrimFloat.eqb x x
  | Some (PStr s) => negb (String.length s =? 0)%nat
  | Some (PList _) | Some (PDict _) => true
  end.

(** [v || fallback] with a string on the right. *)
Definition js_or (v : option pyval) (fallback : string) : option pyval :=
  if js_truthy v then v else Some (PStr fallback).

(** [String(v)], as a template literal and [new Error(v)] apply it. *)
Definition js_text (b : browser) (v : option pyval) : string :=
  match v with
  | None => "undefined"
  | Some PNone => "null"
  | Some (PBool true) => "true"
  | Some (PBool false) => "false"
  | Some (PStr s) => s
  | Some (PInt n) =>
      if Z.abs n <=? 2 ^ 53 then decimal n else other_text b (PInt n)
  | Some (PDict _) => "[object Object]"
  | Some w => other_text b w
  end.

(** What [predictionOutput] holds: set through [textContent] or through
    [innerHTML]. *)
Inductive content : Type :=
| Text (text : string)
| Markup (html : string).

(** The part of the document the script reads and writes. *)
Record page : Type := Page {
  submit_disabled : bool;      (* submitButton.disabled *)
  submit_text : string;        (* submitButton.textContent *)
  spinner_hidden : bool;       (* 'hidden' in loadingSpinner.classList *)
  output : content;            (* predictionOutput *)
  output_green : bool;         (* 'text-green-600' in its classList *)
  output_red : bool;           (* 'text-red-600' in its classList *)
  error_text : string;         (* errorOutput.textContent *)
  error_hidden : bool          (* 'hidden' in errorOutput.classList *)
}.

(** The page as the markup of [html_content] gives it. *)
Definition loaded_page : page :=
  Page false
       (nl ++ "                Get Prediction" ++ nl ++ "            ")
       true
       (Text (nl ++ "                Awaiting input..." ++ nl ++ "            "))
       false false EmptyString true.

(** The template literal assigned to [predictionOutput.innerHTML]. *)
Definition result_markup (label index : string) : string :=
  nl ++ "                        <span class=" ++ dq ++ "text-2xl" ++ dq ++ ">"
     ++ label ++ "</span> " ++ nl
     ++ "                        <span class=" ++ dq
     ++ "text-gray-500 text-sm" ++ dq ++ ">(Class Index: " ++ index
     ++ ")</span>" ++ nl ++ "                    ".

(** Step 2 of the listener: the page while the request is in flight. *)
Definition busy (pg : page) : page :=
  Page true "Processing..." false (Text "Sending data to model...")
       (output_green pg) (output_red pg) (error_text pg) true.

(** The [try] block, steps 3 to 5: the page it leaves and, when it throws,
    the message of what it threw. *)
Definition try_block (b : browser) (res : fetched) (pg : page)
  : page * option string :=
  match res with
  | FetchRejected message => (pg, Some message)
  | FetchResponse code content =>
      if negb (response_ok code) then
        match content with
        | BodyNotJson message => (pg, Some message)
        | BodyJson errorJson =>
            match js_member b errorJson "error" with
            | Threw message => (pg, Some message)
            | Value err =>
                (pg,
                 Some (js_text b
                         (js_or err ("HTTP error! Status: " ++ decimal code))))
            end
        end
      else
        match content with
        | BodyNotJson message => (pg, Some message)
        | BodyJson result =>
            match js_member b result "success" with
            | Threw message => (pg, Some message)
            | Value flag =>
                if js_truthy flag then
                  let green :=
                    Page (submit_disabled pg) (submit_text pg)
                         (spinner_hidden pg) (output pg) true false
                         (error_text pg) (error_hidden pg) in
                  match js_member b result "predicted_label" with
                  | Threw message => (green, Some message)
                  | Value label =>
                      match js_member b result "prediction_index" with
                      | Threw message => (green, Some message)
                      | Value index =>
                          (Page (submit_disabled pg) (submit_text pg)
                                (spinner_hidden pg)
                                (Markup (result_markup (js_text b label)
                                           (js_text b index)))
                                true false (error_text pg) (error_hidden pg),
                           None)
                      end
                  end
                else
                  match js_member b result "error" with
                  | Threw message => (pg, Some message)
                  | Value err =>
                      (pg,
                       Some (js_text b
                               (js_or err
                                  "An unknown error occurred in the API.")))
                  end
            end
        end
  end.

(** The [catch] block, step 6. *)
Definition catch_block (message : string) (pg : page) : page :=
  Page (submit_disabled pg) (submit_text pg) (spinner_hidden pg)
       (Text "Prediction Failed") false true
       ("Error: " ++ message) false.

(** The [finally] block, step 7. *)
Definition finally_block (pg : page) : page :=
  Page false "Get Prediction" true (output pg) (output_green pg)
       (output_red pg) (error_text pg) (error_hidden pg).

(** The listener from the moment [fetch] settles: the final page and what
    went to [console.error]. *)
Definition settle (b : browser) (res : fetched) (pg : page)
  : page * list string :=
  match try_block b res pg with
  | (pg', None) => (finally_block pg', [])
  | (pg', Some message) =>
      (finally_block (catch_block message pg'), [message])
  end.

(** One submission: the body sent, the page while waiting, and the page and
    console once the network has answered with [net body]. *)
Definition on_submit (b : browser) (f : form) (net : pyval -> fetched)
    (pg : page) : pyval * page * (page * list string) :=
  let body := request_body b f in
  (body, busy pg, settle b (net body) (busy pg)).

(** The response the script takes for a prediction: a status in 200-299 and a
    JSON object whose [success] is a true value. *)
Definition announces_success (res : fetched) : Prop :=
  exists code d,
    res = FetchResponse code (BodyJson (PDict d)) /\
    response_ok code = true /\
    js_truthy (dict_lookup d "success") = true.

(** A response of this service as [fetch] delivers it. *)
Definition reply (b : browser) (r : response) : fetched :=
  match body r with
  | Json doc => FetchResponse (status r) (BodyJson doc)
  | Html text => FetchResponse (status r) (BodyNotJson (not_json_text b text))
  end.

(** [net] is the network when the page talks to this service in state [st]
    at time [now]: the body arrives as JSON and the handler's response comes
    back. *)
Definition carries (b : browser) (float_str : string -> bool) (now : Z)
    (st : process) (net : pyval -> fetched) : Prop :=
  forall body r,
    fst (predict float_str (Returns body) now st) = Returns r ->
    net body = reply b r.

(** The [error] string of a response's document. *)
Definition error_of (r : response) : option string :=
  match body r with
  | Json (PDict d) =>
      match dict_lookup d "error" with
      | Some (PStr message) => Some message
      | _ => None
      end
  | _ => None
  end.

(** * Properties *)

Ltac unfold_py :=
  unfold predict, predict_try, predict_except, get_json, call_predict,
    unix_time, try_except, bind, lift, read, ret, raise, emit, print,
    with_status, jsonify in *.

Lemma step_nil st : step st [] = st.
Proof. destruct st; unfold step; simpl. now rewrite app_nil_r. Qed.

Lemma step_step st a b : step (step st a) b = step st (a ++ b).
Proof. unfold step; simpl. now rewrite app_assoc. Qed.

Lemma count_step p st evs :
  count p (trace (step st evs)) = (count p (trace st) + count p evs)%nat.
Proof. unfold count, step; simpl. now rewrite filter_app, length_app. Qed.

Section Handler.

Variable float_str : string -> bool.

Lemma predict_answer st m request now :
  ai_model st = Some m ->
  predict float_str request now st =
    (Returns (fst (answer float_str (CLASS_LABELS st) m request now)),
     step st (snd (answer float_str (CLASS_LABELS st) m request now))).
Proof.
  intros Hm. unfold predict, read. unfold bind at 1. rewrite Hm.
  unfold answer, step. unfold_py. cbv beta iota.
  destruct request as [data|e]; cbv beta iota; [|reflexivity].
  destruct (py_get data "features") as [features|e]; cbv beta iota;
    [|reflexivity].
  destruct (invalid_features features) as [[|]|e]; cbv beta iota;
    try reflexivity.
  destruct (np_array float_str (PList [features])) as [a|e]; cbv beta iota;
    [|reflexivity].
  cbn [CLASS_LABELS ai_model trace].
  destruct (predict_fn m a) as [out|e]; cbv beta iota;
    [|now rewrite <- app_assoc].
  destruct (first_item out) as [x|e]; cbv beta iota;
    [|now rewrite <- app_assoc].
  destruct (list_getitem_np (CLASS_LABELS st) x) as [label|e];
    cbv beta iota; [|now rewrite <- app_assoc].
  destruct (py_int x) as [i|e]; cbv beta iota; [|now rewrite <- app_assoc].
  cbn [CLASS_LABELS ai_model trace fst snd]. now rewrite <- !app_assoc.
Qed.

Lemma predict_unset st request now :
  ai_model st = None ->
  predict float_str request now st = (Returns unavailable, st).
Proof.
  intros Hm. unfold predict, read. unfold bind at 1. now rewrite Hm.
Qed.

(** A sized value of length 4 passes the input check, whatever it holds. *)
Lemma sized_four_valid features :
  py_len features = Returns 4 -> invalid_features features = Returns false.
Proof.
  intros H. unfold invalid_features.
  assert (Ht : truthy features = true).
  { destruct features; simpl in H; try discriminate;
      injection H as H; simpl; apply negb_true_iff, Nat.eqb_neq; lia. }
  now rewrite Ht, H.
Qed.

Lemma features_of_object d features :
  dict_lookup d "features" = Some features ->
  py_get (PDict d) "features" = Returns features.
Proof. intros H. simpl. now rewrite H. Qed.

(** The request reaches the label lookup with the index the model gave. *)
Lemma predict_reaches_lookup st m d features now x :
  ai_model st = Some m ->
  dict_lookup d "features" = Some features ->
  py_len features = Returns 4 ->
  predicted_index float_str m features = Returns x ->
  exists a,
    predict float_str (Returns (PDict d)) now st =
      match list_getitem_np (CLASS_LABELS st) x with
      | Raises e => (Returns (server_error e), step st [EvGetJson; EvPredict a])
      | Returns label =>
          match py_int x with
          | Raises e =>
              (Returns (server_error e), step st [EvGetJson; EvPredict a])
          | Returns i =>
              (Returns (success i label now),
               step st [EvGetJson; EvPredict a; EvTime])
          end
      end.
Proof.
  intros Hm Hd Hlen Hx.
  rewrite (predict_answer st m _ now Hm). unfold answer.
  rewrite (features_of_object _ _ Hd), (sized_four_valid _ Hlen).
  unfold predicted_index in Hx.
  destruct (np_array float_str (PList [features])) as [a|e]; [|discriminate].
  exists a.
  destruct (predict_fn m a) as [out|e]; [|discriminate].
  rewrite Hx.
  destruct (list_getitem_np (CLASS_LABELS st) x) as [label|e]; [|reflexivity].
  destruct (py_int x); reflexivity.
Qed.

(** C1.  With the model loaded, a request whose body is a JSON object with a
    [features] list of exactly four numbers, for which the model predicts a
    class index [idx] inside the three-entry label table, is answered with
    status 200 and the document [success: true], [prediction_index: idx],
    [predicted_label:] the table's entry at [idx], [timestamp:] the current
    Unix time in seconds. *)
Theorem predict_valid_request st m d x1 x2 x3 x4 now idx :
  ai_model st = Some m ->
  CLASS_LABELS st = iris_labels ->
  dict_lookup d "features" = Some (PList [x1; x2; x3; x4]) ->
  forallb is_number [x1; x2; x3; x4] = true ->
  predicted_index float_str m (PList [x1; x2; x3; x4]) = Returns (NpInt idx) ->
  0 <= idx < 3 ->
  exists label,
    nth_error iris_labels (Z.to_nat idx) = Some label /\
    fst (predict float_str (Returns (PDict d)) now st) =
      Returns (Response 200
                 (Json (PDict [("success", PBool true);
                               ("prediction_index", PInt idx);
                               ("predicted_label", PStr label);
                               ("timestamp", PInt now)]))).
Proof.
  intros Hm Hl Hd _ Hx Hidx.
  destruct (predict_reaches_lookup st m d _ now _ Hm Hd eq_refl Hx) as [a Hp].
  rewrite Hp, Hl. clear Hp.
  assert (Hc : idx = 0 \/ idx = 1 \/ idx = 2) by lia.
  destruct Hc as [-> | [-> | ->]]; eexists; (split; [reflexivity|reflexivity]).
Qed.

(** C9.  When the model answers a valid four-element request with a negative
    class index in {-1, -2, -3}, the lookup counts from the end of the label
    table and the handler answers 200 with [success: true], the negative
    [prediction_index] and that label; index -1 gives 'Virginica'. *)
Theorem predict_negative_index st m d features now idx :
  ai_model st = Some m ->
  CLASS_LABELS st = iris_labels ->
  dict_lookup d "features" = Some features ->
  py_len features = Returns 4 ->
  predicted_index float_str m features = Returns (NpInt idx) ->
  -3 <= idx < 0 ->
  exists label,
    nth_error iris_labels (Z.to_nat (3 + idx)) = Some label /\
    (idx = -1 -> label = "Virginica") /\
    fst (predict float_str (Returns (PDict d)) now st) =
      Returns (Response 200
                 (Json (PDict [("success", PBool true);
                               ("prediction_index", PInt idx);
                               ("predicted_label", PStr label);
                               ("timestamp", PInt now)]))).
Proof.
  intros Hm Hl Hd Hlen Hx Hidx.
  destruct (predict_reaches_lookup st m d _ now _ Hm Hd Hlen Hx) as [a Hp].
  rewrite Hp, Hl. clear Hp.
  assert (Hc : idx = -1 \/ idx = -2 \/ idx = -3) by lia.
  destruct Hc as [-> | [-> | ->]]; eexists;
    (split; [reflexivity|split; [intros; try reflexivity; lia|reflexivity]]).
Qed.

(** C2, as the code has it.  A class index at or beyond the table's length
    makes the label lookup raise [IndexError]; no bounds check precedes it, but
    the lookup sits inside the [try], so the failure is caught by the
    catch-all clause and answered with status 500 and the lookup's message.
    The last valid index, 2, is answered with status 200 and 'Virginica'. *)
Theorem predict_index_beyond_table st m d features now idx :
  ai_model st = Some m ->
  CLASS_LABELS st = iris_labels ->
  dict_lookup d "features" = Some features ->
  py_len features = Returns 4 ->
  predicted_index float_str m features = Returns (NpInt idx) ->
  (3 <= idx ->
   list_getitem iris_labels idx =
     Raises (Exn IndexError "list index out of range") /\
   fst (predict float_str (Returns (PDict d)) now st) =
     Returns (Response 500
                (Json (PDict [("success", PBool false);
                              ("error",
                               PStr "Prediction failed due to server error: list index out of range")]))))
  /\
  (idx = 2 ->
   fst (predict float_str (Returns (PDict d)) now st) =
     Returns (Response 200
                (Json (PDict [("success", PBool true);
                              ("prediction_index", PInt 2);
                              ("predicted_label", PStr "Virginica");
                              ("timestamp", PInt now)])))).
Proof.
  intros Hm Hl Hd Hlen Hx.
  destruct (predict_reaches_lookup st m d _ now _ Hm Hd Hlen Hx) as [a Hp].
  rewrite Hp, Hl. clear Hp. split.
  - intros Hge.
    assert (Hr : list_getitem iris_labels idx =
                   Raises (Exn IndexError "list index out of range")).
    { unfold list_getitem. simpl List.length.
      destruct (idx <? 0) eqn:E1; [apply Z.ltb_lt in E1; lia|].
      destruct (idx <? 0) eqn:E2; [discriminate|].
      destruct (Z.of_nat 3 <=? idx) eqn:E3; [reflexivity|].
      apply Z.leb_gt in E3. lia. }
    split; [exact Hr|]. simpl list_getitem_np. now rewrite Hr.
  - intros ->. reflexivity.
Qed.

(** C3, as the code has it.  When the body is a JSON object in which
    [features] is absent, or is a false value (null, false, zero, an empty
    string, list or object), or is a string, list or object whose length is
    not 4, the handler answers 400 with the invalid-input message and the
    model's [predict] is not called. *)
Theorem predict_rejects_features st m d now :
  ai_model st = Some m ->
  (dict_lookup d "features" = None \/
   exists features,
     dict_lookup d "features" = Some features /\
     (truthy features = false \/
      exists n, py_len features = Returns n /\ n <> 4)) ->
  fst (predict float_str (Returns (PDict d)) now st) =
    Returns (Response 400
               (Json (PDict [("error",
                              PStr "Invalid input: features must be a list of 4 numerical values.")])))
  /\ count is_predict (trace (snd (predict float_str (Returns (PDict d)) now st)))
     = count is_predict (trace st).
Proof.
  intros Hm Hbad.
  rewrite (predict_answer st m _ now Hm). unfold answer.
  assert (Hinv : exists features,
             py_get (PDict d) "features" = Returns features /\
             invalid_features features = Returns true).
  { destruct Hbad as [Hnone | (features & Hsome & Hf)].
    - exists PNone. simpl. now rewrite Hnone.
    - exists features. split; [now apply features_of_object|].
      unfold invalid_features.
      destruct Hf as [Hfalse | (n & Hlen & Hn)].
      + now rewrite Hfalse.
      + rewrite Hlen. apply Z.eqb_neq in Hn. rewrite Hn.
        now destruct (truthy features). }
  destruct Hinv as (features & Hget & Hinv). rewrite Hget, Hinv.
  split; [reflexivity|]. cbn [snd]. rewrite count_step.
  change (count is_predict [EvGetJson]) with 0%nat. apply Nat.add_0_r.
Qed.

(** C4.  With the model handle unset, every request is answered with status
    503 and an error message, whatever the body; the process is left exactly as
    it was, so neither [get_json] nor [predict] has been called. *)
Theorem predict_model_unset st request now :
  ai_model st = None ->
  predict float_str request now st =
    (Returns (Response 503
                (Json (PDict [("error", PStr "Model not loaded on server.")]))),
     st)
  /\ count is_get_json (trace (snd (predict float_str request now st)))
     = count is_get_json (trace st)
  /\ count is_predict (trace (snd (predict float_str request now st)))
     = count is_predict (trace st).
Proof.
  intros Hm. rewrite (predict_unset st request now Hm). now repeat split.
Qed.

(** C5.  Whatever exception the body of the [try] raises (from [get_json],
    from the coercion to an array, from the model), the handler catches it
    and answers 500 with [success: false] and an [error] string that ends
    with the exception's message. *)
Theorem predict_catch_all st m request now e st' :
  ai_model st = Some m ->
  predict_try float_str m request now st = (Raises e, st') ->
  predict float_str request now st =
    (Returns (Response 500
                (Json (PDict [("success", PBool false);
                              ("error",
                               PStr ("Prediction failed due to server error: "
                                       ++ exn_msg e))]))),
     st').
Proof.
  intros Hm Hraise. unfold predict, read. unfold bind at 1. rewrite Hm.
  unfold try_except. now rewrite Hraise.
Qed.

(** The three stages the claim names do raise out of the [try] body. *)
Lemma parsing_error_raises st m now e :
  predict_try float_str m (Raises e) now st = (Raises e, step st [EvGetJson]).
Proof. reflexivity. Qed.

Lemma coercion_error_raises st m d features now e :
  dict_lookup d "features" = Some features ->
  py_len features = Returns 4 ->
  np_array float_str (PList [features]) = Raises e ->
  predict_try float_str m (Returns (PDict d)) now st =
    (Raises e, step st [EvGetJson]).
Proof.
  intros Hd Hlen He. unfold_py. cbv beta iota.
  rewrite (features_of_object _ _ Hd), (sized_four_valid _ Hlen).
  cbv beta iota. now rewrite He.
Qed.

Lemma inference_error_raises st m d features now a e :
  dict_lookup d "features" = Some features ->
  py_len features = Returns 4 ->
  np_array float_str (PList [features]) = Returns a ->
  predict_fn m a = Raises e ->
  predict_try float_str m (Returns (PDict d)) now st =
    (Raises e, step st [EvGetJson; EvPredict a]).
Proof.
  intros Hd Hlen Ha He. unfold_py. cbv beta iota.
  rewrite (features_of_object _ _ Hd), (sized_four_valid _ Hlen).
  cbv beta iota. rewrite Ha. cbv beta iota. cbn [CLASS_LABELS ai_model trace].
  rewrite He. unfold step. now rewrite <- app_assoc.
Qed.

Lemma predict_view_unset truth st request now :
  ai_model st = None ->
  predict_view float_str truth request now st = (Returns unavailable, st).
Proof.
  intros Hm. unfold predict_view, read. unfold bind at 1. now rewrite Hm.
Qed.

Lemma predict_view_false truth st m request now :
  ai_model st = Some m ->
  truth m = Returns false ->
  predict_view float_str truth request now st = (Returns unavailable, st).
Proof.
  intros Hm Ht. unfold predict_view, read. unfold bind at 1. rewrite Hm.
  unfold bind at 1. unfold lift. now rewrite Ht.
Qed.

Lemma predict_view_raises truth st m request now e :
  ai_model st = Some m ->
  truth m = Raises e ->
  predict_view float_str truth request now st = (Raises e, st).
Proof.
  intros Hm Ht. unfold predict_view, read. unfold bind at 1. rewrite Hm.
  unfold bind at 1. unfold lift. now rewrite Ht.
Qed.

(** For an object that is true the handler is [predict]. *)
Lemma predict_view_true truth st m request now :
  ai_model st = Some m ->
  truth m = Returns true ->
  predict_view float_str truth request now st =
  predict float_str request now st.
Proof.
  intros Hm Ht. unfold predict_view, predict, read. unfold bind at 1 3.
  rewrite Hm. unfold bind at 1. unfold lift at 1. now rewrite Ht.
Qed.

(** C6, as the code has it.  The handler returns a response exactly when the
    truth test of line 37 returns: with the handle unset, or bound to an object
    whose truth value is computed, every request and every clock reading is
    answered, whatever is raised inside the [try]; when the object's truth
    value raises, the exception leaves the handler, the test being outside the
    [try]. *)
Theorem predict_view_returns_iff truth request now st :
  (exists r st',
     predict_view float_str truth request now st = (Returns r, st'))
  <->
  (forall m, ai_model st = Some m -> exists t, truth m = Returns t).
Proof.
  split.
  - intros (r & st' & Hr) m Hm.
    destruct (truth m) as [t|e] eqn:Ht; [now exists t|].
    rewrite (predict_view_raises truth st m request now e Hm Ht) in Hr.
    discriminate.
  - intros Htruth.
    destruct (ai_model st) as [m|] eqn:Hm.
    + destruct (Htruth m eq_refl) as [[|] Ht].
      * rewrite (predict_view_true truth st m request now Hm Ht).
        rewrite (predict_answer st m request now Hm). eauto.
      * rewrite (predict_view_false truth st m request now Hm Ht). eauto.
    + rewrite (predict_view_unset truth st request now Hm). eauto.
Qed.

Lemma number_is_cell v :
  castable_number v = true ->
  discover v = Returns ([], [v]) /\ cast_cell float_str v = Returns v.
Proof.
  destruct v; try discriminate; simpl; intros H; [|now split].
  now rewrite H.
Qed.

(** Four numbers become the one-row matrix the model expects. *)
Lemma numbers_coerced x1 x2 x3 x4 :
  forallb castable_number [x1; x2; x3; x4] = true ->
  np_array float_str (PList [PList [x1; x2; x3; x4]]) =
    Returns (NdArray [1%nat; 4%nat] [x1; x2; x3; x4]).
Proof.
  cbn [forallb]. rewrite !andb_true_iff. intros (H1 & H2 & H3 & H4 & _).
  destruct (number_is_cell _ H1) as [D1 C1], (number_is_cell _ H2) as [D2 C2],
    (number_is_cell _ H3) as [D3 C3], (number_is_cell _ H4) as [D4 C4].
  unfold np_array. cbn [discover map]. rewrite D1, D2, D3, D4.
  cbn [stack list_eqb_nat app List.length cast_cells].
  now rewrite C1, C2, C3, C4.
Qed.

(** A list of four strings of which one is not a number for [float()] does
    not become an array. *)
Lemma strings_not_coerced s1 s2 s3 s4 :
  float_str s1 && float_str s2 && float_str s3 && float_str s4 = false ->
  exists e,
    exn_cls e = ValueError /\
    np_array float_str (PList [PList [PStr s1; PStr s2; PStr s3; PStr s4]])
      = Raises e.
Proof.
  intros H. unfold np_array. cbn [discover map stack list_eqb_nat app].
  cbn [cast_cells cast_cell].
  destruct (float_str s1); [|eexists; split; [|reflexivity]; reflexivity].
  destruct (float_str s2); [|eexists; split; [|reflexivity]; reflexivity].
  destruct (float_str s3); [|eexists; split; [|reflexivity]; reflexivity].
  destruct (float_str s4); [discriminate|eexists; split; [|reflexivity]; reflexivity].
Qed.

(** C10, as the code has it.  The input check looks at presence, truth value
    and length only.  Any sized value of length 4 passes it, whatever its
    elements are; the answer to such a request is never 400; when the coercion
    or the inference then fails the answer is 500 with the failure's message;
    and a list of four strings of which one is not a number for [float()]
    fails in the coercion, before the model is called, and is answered 500. *)
Theorem predict_untyped_features st m d features now :
  ai_model st = Some m ->
  dict_lookup d "features" = Some features ->
  py_len features = Returns 4 ->
  invalid_features features = Returns false
  /\ (forall r, fst (predict float_str (Returns (PDict d)) now st) = Returns r ->
      status r <> 400)
  /\ (forall e,
        predicted_index float_str m features = Raises e ->
        fst (predict float_str (Returns (PDict d)) now st) =
          Returns (server_error e))
  /\ (forall s1 s2 s3 s4,
        features = PList [PStr s1; PStr s2; PStr s3; PStr s4] ->
        float_str s1 && float_str s2 && float_str s3 && float_str s4 = false ->
        exists e,
          exn_cls e = ValueError /\
          fst (predict float_str (Returns (PDict d)) now st) =
            Returns (Response 500
                       (Json (PDict [("success", PBool false);
                                     ("error",
                                      PStr ("Prediction failed due to server error: "
                                              ++ exn_msg e))]))) /\
          count is_predict
            (trace (snd (predict float_str (Returns (PDict d)) now st)))
          = count is_predict (trace st)).
Proof.
  intros Hm Hd Hlen.
  pose proof (sized_four_valid _ Hlen) as Hvalid.
  pose proof (predict_answer st m (Returns (PDict d)) now Hm) as Hp.
  unfold answer in Hp.
  rewrite (features_of_object _ _ Hd), Hvalid in Hp.
  split; [exact Hvalid|]. split; [|split].
  - intros r Hr. rewrite Hp in Hr. cbn [fst] in Hr.
    destruct (np_array float_str (PList [features])) as [a|e];
      [|injection Hr as <-; discriminate].
    destruct (predict_fn m a) as [out|e];
      [|injection Hr as <-; discriminate].
    destruct (first_item out) as [x|e]; [|injection Hr as <-; discriminate].
    destruct (list_getitem_np (CLASS_LABELS st) x) as [label|e];
      [|injection Hr as <-; discriminate].
    destruct (py_int x) as [i|e]; injection Hr as <-; discriminate.
  - intros e He. rewrite Hp. unfold predicted_index in He.
    destruct (np_array float_str (PList [features])) as [a|e'];
      [|now injection He as ->].
    destruct (predict_fn m a) as [out|e']; [|now injection He as ->].
    now rewrite He.
  - intros s1 s2 s3 s4 -> Hstr.
    destruct (strings_not_coerced s1 s2 s3 s4 Hstr) as (e & Hcls & He).
    exists e. rewrite Hp, He. split; [exact Hcls|].
    split; [reflexivity|]. cbn [snd]. rewrite count_step.
    change (count is_predict [EvGetJson]) with 0%nat. apply Nat.add_0_r.
Qed.

End Handler.

Example boot_good :
  boot (good_host (constant_model (NpInt 2))) =
    Process iris_labels (Some (constant_model (NpInt 2)))
      [EvAssign "CLASS_LABELS"; EvAssign "ai_model";
       EvPrint "Successfully loaded model from model.joblib"].
Proof. reflexivity. Qed.

Example boot_bare :
  boot bare_host =
    Process iris_labels None
      [EvAssign "CLASS_LABELS"; EvAssign "ai_model";
       EvPrint "Error loading model: Model file 'model.joblib' not found. Please run 'create_model.py' first.";
       EvPrint "The API will not function until the model is correctly saved."].
Proof. reflexivity. Qed.

Example default_request_runs :
  predict plain_decimal (post default_features) 1700000000
    (boot (good_host (constant_model (NpInt 2)))) =
  (Returns (success 2 "Virginica" 1700000000),
   step (boot (good_host (constant_model (NpInt 2))))
     [EvGetJson;
      EvPredict (NdArray [1%nat; 4%nat]
                   [PFloat 5.1; PFloat 3.5; PFloat 1.4; PFloat 0.2]);
      EvTime]).
Proof. reflexivity. Qed.

Lemma html_is_plain : plain_template html_content = true.
Proof. vm_compute. reflexivity. Qed.

Lemma html_no_final_newline : drop_final_newline html_content = html_content.
Proof. vm_compute. reflexivity. Qed.

Lemma count_app p (a b : list event) :
  count p (a ++ b) = (count p a + count p b)%nat.
Proof. unfold count. now rewrite filter_app, length_app. Qed.

(** The start-up code binds [ai_model] once on every machine, and leaves the
    label table as line 14 wrote it. *)
Lemma boot_state h :
  count (is_assign "ai_model") (trace (boot h)) = 1%nat /\
  CLASS_LABELS (boot h) = iris_labels.
Proof.
  unfold boot, module_init, load_model, assign_CLASS_LABELS, assign_ai_model,
    blank.
  unfold_py. cbv beta iota.
  destruct (path_exists h MODEL_FILE); cbv beta iota delta [negb];
    [|split; reflexivity].
  destruct (joblib_load h MODEL_FILE); split; reflexivity.
Qed.

Section Service.

Variable float_str : string -> bool.
Variable jinja_render : string -> outcome string.

Lemma index_run st :
  index jinja_render st = (Returns (Response 200 (Html html_content)), st).
Proof.
  unfold index, render_template_string, bind, ret.
  now rewrite html_is_plain, html_no_final_newline.
Qed.

(** A call of the handler adds events to the trace, none of them a write, and
    touches nothing else. *)
Lemma predict_frame st request now :
  exists evs,
    snd (predict float_str request now st) = step st evs /\
    count is_write evs = 0%nat.
Proof.
  destruct (ai_model st) as [m|] eqn:Hm.
  - rewrite (predict_answer float_str st m request now Hm). cbn [snd].
    eexists; split; [reflexivity|]. unfold answer.
    destruct request as [data|e]; [|reflexivity].
    destruct (py_get data "features") as [features|e]; [|reflexivity].
    destruct (invalid_features features) as [[|]|e]; try reflexivity.
    destruct (np_array float_str (PList [features])) as [a|e]; [|reflexivity].
    destruct (predict_fn m a) as [out|e]; [|reflexivity].
    destruct (first_item out) as [x|e]; [|reflexivity].
    destruct (list_getitem_np (CLASS_LABELS st) x) as [label|e];
      [|reflexivity].
    destruct (py_int x); reflexivity.
  - rewrite (predict_unset float_str st request now Hm). cbn [snd].
    exists []. now rewrite step_nil.
Qed.

(** Every state of the running process is the start-up state of some machine
    followed by events that write nothing. *)
Lemma reachable_since_boot st :
  reachable float_str jinja_render st ->
  exists h served,
    st = step (boot h) served /\ count is_write served = 0%nat.
Proof.
  induction 1 as [h | st request now _ IH | st _ IH].
  - exists h, []. now rewrite step_nil.
  - destruct IH as (h & served & -> & Hw).
    destruct (predict_frame (step (boot h) served) request now)
      as (evs & -> & Hevs).
    exists h, (served ++ evs)%list. rewrite step_step, count_app, Hw, Hevs.
    now split.
  - rewrite index_run. exact IH.
Qed.

(** The label table stays what line 14 made it. *)
Lemma reachable_labels st :
  reachable float_str jinja_render st -> CLASS_LABELS st = iris_labels.
Proof.
  intros Hreach.
  destruct (reachable_since_boot st Hreach) as (h & served & -> & _).
  exact (proj2 (boot_state h)).
Qed.

Lemma no_write_no_assign name evs :
  count is_write evs = 0%nat -> count (is_assign name) evs = 0%nat.
Proof.
  unfold count. induction evs as [|ev evs IH]; [reflexivity|].
  simpl. destruct ev; simpl; try discriminate; exact IH.
Qed.

(** C7.  In every state of the running process: [ai_model] has been bound
    exactly once, by the start-up code (what follows the start-up trace holds
    no write); and a call of the predict handler leaves [CLASS_LABELS] and
    [ai_model] as they were and adds no assignment and no output to the
    trace. *)
Theorem predict_mutates_nothing st :
  reachable float_str jinja_render st ->
  count (is_assign "ai_model") (trace st) = 1%nat
  /\ (exists h served,
        trace st = (trace (boot h) ++ served)%list /\
        count (is_assign "ai_model") (trace (boot h)) = 1%nat /\
        count is_write served = 0%nat)
  /\ (forall request now,
        CLASS_LABELS (snd (predict float_str request now st)) = CLASS_LABELS st
        /\ ai_model (snd (predict float_str request now st)) = ai_model st
        /\ exists evs,
             trace (snd (predict float_str request now st))
               = (trace st ++ evs)%list
             /\ count is_write evs = 0%nat).
Proof.
  intros Hreach.
  destruct (reachable_since_boot st Hreach) as (h & served & -> & Hw).
  destruct (boot_state h) as [Hone _].
  split; [|split].
  - rewrite count_step, Hone, (no_write_no_assign _ _ Hw). reflexivity.
  - exists h, served. now repeat split.
  - intros request now.
    destruct (predict_frame (step (boot h) served) request now)
      as (evs & -> & Hevs).
    repeat split. exists evs. now split.
Qed.

(** C8.  [GET /] answers with the same document whatever the state of the
    process and however often it is called: status 200 and the bytes of
    [html_content]; serving it leaves the process as it was. *)
Theorem index_deterministic st1 st2 :
  fst (index jinja_render st1) = fst (index jinja_render st2)
  /\ fst (index jinja_render st1) = Returns (Response 200 (Html html_content))
  /\ snd (index jinja_render st1) = st1.
Proof. rewrite !index_run. now repeat split. Qed.

End Service.

(** ** Instances *)

(** C1 on the page's default values, with a model that answers class 2. *)
Lemma predict_valid_request_witness :
  exists label,
    nth_error iris_labels (Z.to_nat 2) = Some label /\
    fst (predict plain_decimal
           (Returns (PDict [("features", default_features)])) 1700000000
           (boot (good_host (constant_model (NpInt 2))))) =
      Returns (Response 200
                 (Json (PDict [("success", PBool true);
                               ("prediction_index", PInt 2);
                               ("predicted_label", PStr label);
                               ("timestamp", PInt 1700000000)]))).
Proof.
  apply (predict_valid_request plain_decimal
           (boot (good_host (constant_model (NpInt 2))))
           (constant_model (NpInt 2))
           [("features", default_features)]
           (PFloat 5.1) (PFloat 3.5) (PFloat 1.4) (PFloat 0.2)
           1700000000 2);
    [reflexivity | reflexivity | reflexivity | reflexivity | reflexivity | lia].
Defined.

(** C9 with a model that answers class -1. *)
Lemma predict_negative_index_witness :
  exists label,
    nth_error iris_labels (Z.to_nat (3 + -1)) = Some label /\
    (-1 = -1 -> label = "Virginica") /\
    fst (predict plain_decimal
           (Returns (PDict [("features", default_features)])) 1700000000
           (boot (good_host (constant_model (NpInt (-1)))))) =
      Returns (Response 200
                 (Json (PDict [("success", PBool true);
                               ("prediction_index", PInt (-1));
                               ("predicted_label", PStr label);
                               ("timestamp", PInt 1700000000)]))).
Proof.
  apply (predict_negative_index plain_decimal
           (boot (good_host (constant_model (NpInt (-1)))))
           (constant_model (NpInt (-1)))
           [("features", default_features)] default_features
           1700000000 (-1));
    [reflexivity | reflexivity | reflexivity | reflexivity | reflexivity | lia].
Defined.

(** C2: with a model that answers class 3, the out-of-range lookup does not
    leave the handler; the request is answered 500. *)
Lemma index_three_is_caught :
  fst (predict plain_decimal
         (Returns (PDict [("features", default_features)])) 1700000000
         (boot (good_host (constant_model (NpInt 3))))) =
    Returns (Response 500
               (Json (PDict [("success", PBool false);
                             ("error",
                              PStr "Prediction failed due to server error: list index out of range")])))
  /\ ~ (exists e,
          fst (predict plain_decimal
                 (Returns (PDict [("features", default_features)])) 1700000000
                 (boot (good_host (constant_model (NpInt 3))))) = Raises e).
Proof.
  split; [reflexivity|]. intros [e He]. vm_compute in He. discriminate.
Qed.

Lemma predict_index_beyond_table_witness :
  list_getitem iris_labels 3 =
    Raises (Exn IndexError "list index out of range") /\
  fst (predict plain_decimal
         (Returns (PDict [("features", default_features)])) 1700000000
         (boot (good_host (constant_model (NpInt 3))))) =
    Returns (Response 500
               (Json (PDict [("success", PBool false);
                             ("error",
                              PStr "Prediction failed due to server error: list index out of range")]))).
Proof.
  apply (proj1 (predict_index_beyond_table plain_decimal
                  (boot (good_host (constant_model (NpInt 3))))
                  (constant_model (NpInt 3))
                  [("features", default_features)] default_features
                  1700000000 3
                  eq_refl eq_refl eq_refl eq_refl eq_refl)).
  lia.
Defined.

(** C3: the body [{features: 5}] parses as JSON and its [features] is not a
    list of four numbers, yet the answer is 500: [len(5)] raises inside the
    [try]. *)
Lemma features_number_is_500 :
  fst (predict plain_decimal
         (Returns (PDict [("features", PInt 5)])) 1700000000
         (boot (good_host (constant_model (NpInt 2))))) =
    Returns (Response 500
               (Json (PDict [("success", PBool false);
                             ("error",
                              PStr "Prediction failed due to server error: object of type 'int' has no len()")])))
  /\ ~ (exists doc,
          fst (predict plain_decimal
                 (Returns (PDict [("features", PInt 5)])) 1700000000
                 (boot (good_host (constant_model (NpInt 2))))) =
            Returns (Response 400 doc)).
Proof.
  split; [reflexivity|]. intros [doc Hdoc]. vm_compute in Hdoc. discriminate.
Qed.

(** C3 as amended, on a list of three numbers. *)
Lemma predict_rejects_features_witness :
  fst (predict plain_decimal
         (Returns (PDict [("features", PList [PInt 1; PInt 2; PInt 3])]))
         1700000000 (boot (good_host (constant_model (NpInt 2))))) =
    Returns (Response 400
               (Json (PDict [("error",
                              PStr "Invalid input: features must be a list of 4 numerical values.")])))
  /\ count is_predict
       (trace (snd (predict plain_decimal
                      (Returns (PDict [("features",
                                        PList [PInt 1; PInt 2; PInt 3])]))
                      1700000000
                      (boot (good_host (constant_model (NpInt 2)))))))
     = count is_predict (trace (boot (good_host (constant_model (NpInt 2))))).
Proof.
  apply (predict_rejects_features plain_decimal
           (boot (good_host (constant_model (NpInt 2))))
           (constant_model (NpInt 2))
           [("features", PList [PInt 1; PInt 2; PInt 3])] 1700000000).
  - reflexivity.
  - right. exists (PList [PInt 1; PInt 2; PInt 3]). split; [reflexivity|].
    right. exists 3. split; [reflexivity|lia].
Defined.

(** C4 on a machine without the model file. *)
Lemma predict_model_unset_witness :
  predict plain_decimal (Returns (PDict [("features", default_features)]))
    1700000000 (boot bare_host) =
    (Returns (Response 503
                (Json (PDict [("error", PStr "Model not loaded on server.")]))),
     boot bare_host).
Proof.
  apply (proj1 (predict_model_unset plain_decimal (boot bare_host)
                  (Returns (PDict [("features", default_features)]))
                  1700000000 eq_refl)).
Defined.

(** C5 on a request whose body Flask refuses to decode. *)
Lemma predict_catch_all_witness :
  fst (predict plain_decimal
         (Raises (Exn HTTPException "415 Unsupported Media Type"))
         1700000000 (boot (good_host (constant_model (NpInt 2))))) =
    Returns (Response 500
               (Json (PDict [("success", PBool false);
                             ("error",
                              PStr "Prediction failed due to server error: 415 Unsupported Media Type")]))).
Proof.
  rewrite (predict_catch_all plain_decimal
             (boot (good_host (constant_model (NpInt 2))))
             (constant_model (NpInt 2))
             (Raises (Exn HTTPException "415 Unsupported Media Type"))
             1700000000
             (Exn HTTPException "415 Unsupported Media Type")
             (step (boot (good_host (constant_model (NpInt 2)))) [EvGetJson])
             eq_refl eq_refl).
  reflexivity.
Defined.

(** C7 on the state right after start-up. *)
Lemma predict_mutates_nothing_witness :
  count (is_assign "ai_model")
    (trace (boot (good_host (constant_model (NpInt 2))))) = 1%nat.
Proof.
  apply (proj1 (predict_mutates_nothing plain_decimal (fun s => Returns s)
                  (boot (good_host (constant_model (NpInt 2))))
                  (reach_boot _ _ _))).
Defined.

(** What [joblib.load] gives when the file holds a numpy array instead of an
    estimator: an object without a [predict] method. *)
Definition array_object : model :=
  broken_model
    (Exn AttributeError "'numpy.ndarray' object has no attribute 'predict'").

(** C6: a handle bound to an object whose truth value raises (a numpy array
    of several elements): the exception of [not ai_model] leaves the handler,
    which returns no response. *)
Lemma truth_test_raises_out_of_handler :
  predict_view plain_decimal
    (fun _ =>
       Raises (Exn ValueError
                 "The truth value of an array with more than one element is ambiguous. Use a.any() or a.all()"))
    (Returns (PDict [("features", default_features)])) 1700000000
    (boot (good_host array_object)) =
    (Raises (Exn ValueError
               "The truth value of an array with more than one element is ambiguous. Use a.any() or a.all()"),
     boot (good_host array_object))
  /\ ~ (exists r st',
          predict_view plain_decimal
            (fun _ =>
               Raises (Exn ValueError
                         "The truth value of an array with more than one element is ambiguous. Use a.any() or a.all()"))
            (Returns (PDict [("features", default_features)])) 1700000000
            (boot (good_host array_object)) = (Returns r, st')).
Proof.
  split; [reflexivity|]. intros (r & st' & H). vm_compute in H. discriminate.
Qed.

(** C10: a length-4 value whose elements are not JSON numbers need not fail.
    The string '1234' and the list [true, '3.5', 1, 0.2] pass the check, are
    coerced, reach the model, and are answered 200. *)
Lemma castable_values_are_answered_200 :
  fst (predict plain_decimal
         (Returns (PDict [("features", PStr "1234")])) 1700000000
         (boot (good_host (constant_model (NpInt 2))))) =
    Returns (Response 200
               (Json (PDict [("success", PBool true);
                             ("prediction_index", PInt 2);
                             ("predicted_label", PStr "Virginica");
                             ("timestamp", PInt 1700000000)])))
  /\
  fst (predict plain_decimal
         (Returns (PDict [("features",
                           PList [PBool true; PStr "3.5"; PInt 1;
                                  PFloat 0.2])]))
         1700000000
         (boot (good_host (constant_model (NpInt 2))))) =
    Returns (Response 200
               (Json (PDict [("success", PBool true);
                             ("prediction_index", PInt 2);
                             ("predicted_label", PStr "Virginica");
                             ("timestamp", PInt 1700000000)]))).
Proof. split; reflexivity. Qed.

(** C10 on four strings that are not numbers. *)
Lemma predict_untyped_features_witness :
  invalid_features (PList [PStr "a"; PStr "b"; PStr "c"; PStr "d"])
    = Returns false
  /\ exists e,
       exn_cls e = ValueError /\
       fst (predict plain_decimal
              (Returns (PDict [("features",
                                PList [PStr "a"; PStr "b"; PStr "c"; PStr "d"])]))
              1700000000 (boot (good_host (constant_model (NpInt 2))))) =
         Returns (Response 500
                    (Json (PDict [("success", PBool false);
                                  ("error",
                                   PStr ("Prediction failed due to server error: "
                                           ++ exn_msg e))]))) /\
       count is_predict
         (trace (snd (predict plain_decimal
                        (Returns (PDict [("features",
                                          PList [PStr "a"; PStr "b"; PStr "c";
                                                 PStr "d"])]))
                        1700000000
                        (boot (good_host (constant_model (NpInt 2)))))))
       = count is_predict (trace (boot (good_host (constant_model (NpInt 2))))).
Proof.
  destruct (predict_untyped_features plain_decimal
              (boot (good_host (constant_model (NpInt 2))))
              (constant_model (NpInt 2))
              [("features", PList [PStr "a"; PStr "b"; PStr "c"; PStr "d"])]
              (PList [PStr "a"; PStr "b"; PStr "c"; PStr "d"])
              1700000000 eq_refl eq_refl eq_refl)
    as (Hvalid & _ & _ & Hstr).
  split; [exact Hvalid|].
  exact (Hstr "a" "b" "c" "d" eq_refl eq_refl).
Defined.

(** * Further properties of the service *)

Section Whole.

Variable float_str : string -> bool.
Variable jinja_render : string -> outcome string.

(** ** Start-up *)


(** X2.  When the model file is absent [joblib.load] plays no part: the
    process starts with [ai_model] unset and a log of two lines, the first
    naming the missing file. *)
Theorem startup_missing_file (h : host) :
  path_exists h MODEL_FILE = false ->
  boot h =
    Process iris_labels None
      [EvAssign "CLASS_LABELS"; EvAssign "ai_model";
       EvPrint "Error loading model: Model file 'model.joblib' not found. Please run 'create_model.py' first.";
       EvPrint "The API will not function until the model is correctly saved."].
Proof.
  intros Hx.
  unfold boot, module_init, load_model, assign_CLASS_LABELS, assign_ai_model,
    blank.
  unfold_py. cbv beta iota. now rewrite Hx.
Qed.

(** X3.  When the file exists and [joblib.load] raises, the exception is
    absorbed: [ai_model] is unset and the log carries the exception's
    message. *)
Theorem startup_load_raises (h : host) (e : exn) :
  path_exists h MODEL_FILE = true ->
  joblib_load h MODEL_FILE = Raises e ->
  boot h =
    Process iris_labels None
      [EvAssign "CLASS_LABELS"; EvAssign "ai_model";
       EvPrint ("Error loading model: " ++ exn_msg e);
       EvPrint "The API will not function until the model is correctly saved."].
Proof.
  intros Hx Hl.
  unfold boot, module_init, load_model, assign_CLASS_LABELS, assign_ai_model,
    blank.
  unfold_py. cbv beta iota. now rewrite Hx, Hl.
Qed.

(** ** Requests in sequence *)

Lemma handle_frame c st :
  exists evs,
    snd (handle float_str jinja_render c st) = step st evs /\
    count is_write evs = 0%nat.
Proof.
  destruct c as [request now|]; cbn [handle].
  - apply predict_frame.
  - rewrite index_run. exists []. now rewrite step_nil.
Qed.

(** What a view function answers depends on the globals only, not on the
    trace. *)
Lemma handle_after_events c st evs :
  fst (handle float_str jinja_render c (step st evs)) =
  fst (handle float_str jinja_render c st).
Proof.
  destruct c as [request now|]; cbn [handle].
  - destruct (ai_model st) as [m|] eqn:Hm.
    + rewrite (predict_answer float_str (step st evs) m request now Hm).
      now rewrite (predict_answer float_str st m request now Hm).
    + rewrite (predict_unset float_str (step st evs) request now Hm).
      now rewrite (predict_unset float_str st request now Hm).
  - now rewrite !index_run.
Qed.

Lemma serve_nth calls :
  forall st i c,
    nth_error calls i = Some c ->
    nth_error (fst (serve float_str jinja_render calls st)) i =
      Some (fst (handle float_str jinja_render c st)).
Proof.
  induction calls as [|c0 calls IH]; intros st i c Hi.
  - destruct i; discriminate.
  - cbn [serve].
    destruct (handle float_str jinja_render c0 st) as [o st'] eqn:H0.
    destruct (serve float_str jinja_render calls st') as [os st''] eqn:Hs.
    destruct i as [|i]; cbn [nth_error fst] in *.
    + injection Hi as <-. now rewrite H0.
    + specialize (IH st' i c Hi). rewrite Hs in IH. cbn [fst] in IH.
      rewrite IH.
      destruct (handle_frame c0 st) as (evs & Hevs & _).
      rewrite H0 in Hevs. cbn [snd] in Hevs. subst st'.
      now rewrite handle_after_events.
Qed.

(** X4.  The service keeps no memory of its requests: in any sequence of
    calls served after start-up, each call is answered exactly as it would be
    if it were the first. *)
Theorem serve_keeps_no_memory (h : host) (calls : list call) (i : nat)
    (c : call) :
  nth_error calls i = Some c ->
  nth_error (fst (serve float_str jinja_render calls (boot h))) i =
    Some (fst (handle float_str jinja_render c (boot h))).
Proof. apply serve_nth. Qed.

(** X5.  A failed load is latched: when start-up left [ai_model] unset, every
    [POST /predict] served afterwards, at any point of any sequence of calls,
    is answered 503 with the same document. *)
Theorem unavailable_is_latched (h : host) (calls : list call) (i : nat)
    (request : outcome pyval) (now : Z) :
  ai_model (boot h) = None ->
  nth_error calls i = Some (PostPredict request now) ->
  nth_error (fst (serve float_str jinja_render calls (boot h))) i =
    Some (Returns (Response 503
                     (Json (PDict [("error",
                                    PStr "Model not loaded on server.")])))).
Proof.
  intros Hm Hi. rewrite (serve_nth calls (boot h) i _ Hi). cbn [handle].
  now rewrite (predict_unset float_str (boot h) request now Hm).
Qed.

(** ** The answers of the predict handler *)

(** X6.  Whenever the handler answers, for any loaded object, the answer is
    one of four documents: the 503 document, given exactly when the handle is
    unset or bound to a false object; the 400 document; a 500 document built
    from an exception; the 200 document.  Only the last two carry a [success]
    key. *)
Theorem predict_four_answers truth st request now r :
  fst (predict_view float_str truth request now st) = Returns r ->
  (status r = 503 <->
   (ai_model st = None \/
    exists m, ai_model st = Some m /\ truth m = Returns false)) /\
  (r = Response 503
         (Json (PDict [("error", PStr "Model not loaded on server.")]))
   \/ r = Response 400
            (Json (PDict [("error",
                           PStr "Invalid input: features must be a list of 4 numerical values.")]))
   \/ (exists e,
         r = Response 500
               (Json (PDict [("success", PBool false);
                             ("error",
                              PStr ("Prediction failed due to server error: "
                                      ++ exn_msg e))])))
   \/ (exists i label,
         r = Response 200
               (Json (PDict [("success", PBool true);
                             ("prediction_index", PInt i);
                             ("predicted_label", PStr label);
                             ("timestamp", PInt now)])))).
Proof.
  clear jinja_render. intros Hr.
  destruct (ai_model st) as [m|] eqn:Hm.
  - destruct (truth m) as [[|]|e] eqn:Ht.
    + rewrite (predict_view_true float_str truth st m request now Hm Ht) in Hr.
      assert (Hnot : ~ (Some m = None \/
                        exists m', Some m = Some m' /\ truth m' = Returns false)).
      { intros [H|(m' & H & Hf)]; [discriminate|].
        injection H as <-. congruence. }
      rewrite (predict_answer float_str st m request now Hm) in Hr.
      cbn [fst] in Hr. injection Hr as <-. unfold answer.
      destruct request as [data|e];
        [|split; [split; [discriminate|tauto]|right; right; left; now exists e]].
      destruct (py_get data "features") as [features|e];
        [|split; [split; [discriminate|tauto]|right; right; left; now exists e]].
      destruct (invalid_features features) as [[|]|e];
        [split; [split; [discriminate|tauto]|right; now left]|
        |split; [split; [discriminate|tauto]|right; right; left; now exists e]].
      destruct (np_array float_str (PList [features])) as [a|e];
        [|split; [split; [discriminate|tauto]|right; right; left; now exists e]].
      destruct (predict_fn m a) as [out|e];
        [|split; [split; [discriminate|tauto]|right; right; left; now exists e]].
      destruct (first_item out) as [x|e];
        [|split; [split; [discriminate|tauto]|right; right; left; now exists e]].
      destruct (list_getitem_np (CLASS_LABELS st) x) as [label|e];
        [|split; [split; [discriminate|tauto]|right; right; left; now exists e]].
      destruct (py_int x) as [i|e];
        [|split; [split; [discriminate|tauto]|right; right; left; now exists e]].
      split; [split; [discriminate|tauto]|right; right; right; now exists i, label].
    + rewrite (predict_view_false float_str truth st m request now Hm Ht) in Hr.
      injection Hr as <-. split; [|now left].
      split; [intros _; right; now exists m|reflexivity].
    + rewrite (predict_view_raises float_str truth st m request now e Hm Ht)
        in Hr.
      discriminate.
  - rewrite (predict_view_unset float_str truth st request now Hm) in Hr.
    injection Hr as <-. split; [|now left].
    split; [intros _; now left|reflexivity].
Qed.

Lemma invalid_features_true features :
  invalid_features features = Returns true <->
  truthy features = false \/
  exists n, py_len features = Returns n /\ n <> 4.
Proof.
  unfold invalid_features. split.
  - destruct (truthy features); [|now left]. cbn [negb].
    destruct (py_len features) as [n|e]; [|discriminate].
    intros H. injection H as H. right. exists n. split; [reflexivity|].
    apply Z.eqb_neq. now apply negb_true_iff.
  - intros [Hf | (n & Hlen & Hn)].
    + now rewrite Hf.
    + rewrite Hlen. apply Z.eqb_neq in Hn. rewrite Hn.
      now destruct (truthy features).
Qed.

(** X7.  With the model loaded, the answer is the 400 document exactly when
    the body decodes to a JSON object whose [features] (null when the key is
    absent) is a false value or has a length other than 4; a body that is not
    an object, or features without a length, is never answered 400. *)
Theorem bad_request_exactly_when st m request now :
  ai_model st = Some m ->
  (exists doc, fst (predict float_str request now st) =
                 Returns (Response 400 doc))
  <->
  (exists d,
     request = Returns (PDict d) /\
     (truthy (features_of d) = false \/
      exists n, py_len (features_of d) = Returns n /\ n <> 4)).
Proof.
  intros Hm. rewrite (predict_answer float_str st m request now Hm).
  cbn [fst]. unfold answer. split.
  - intros [doc Hdoc].
    destruct request as [data|e]; [|discriminate].
    destruct data as [| | | | |items|d]; try discriminate.
    exists d. split; [reflexivity|]. apply invalid_features_true.
    cbn [py_get] in Hdoc. fold (features_of d) in Hdoc.
    destruct (invalid_features (features_of d)) as [[|]|e];
      [reflexivity| |discriminate].
    destruct (np_array float_str (PList [features_of d])) as [a|e];
      [|discriminate].
    destruct (predict_fn m a) as [out|e]; [|discriminate].
    destruct (first_item out) as [x|e]; [|discriminate].
    destruct (list_getitem_np (CLASS_LABELS st) x) as [label|e];
      [|discriminate].
    destruct (py_int x); discriminate.
  - intros (d & -> & Hbad). apply invalid_features_true in Hbad.
    cbn [py_get]. fold (features_of d). rewrite Hbad. eexists. reflexivity.
Qed.

(** X8.  What one call of the handler does, for any loaded object, in order.
    Nothing, when the handle is unset or bound to a false object (the answer
    is 503) and when the object's truth value raises (the exception leaves
    the handler).  Otherwise one [get_json]; then at most one [predict] of
    the model, with answer 500 or 200; then, exactly when the answer is 200,
    one reading of the clock. *)
Theorem predict_effects truth st request now :
  exists evs,
    snd (predict_view float_str truth request now st) = step st evs /\
    let outcome_is := fst (predict_view float_str truth request now st) in
    let is_true := exists m, ai_model st = Some m /\ truth m = Returns true in
    ((ai_model st = None \/
      exists m, ai_model st = Some m /\ truth m = Returns false) /\
     (exists r, outcome_is = Returns r /\ status r = 503) /\ evs = [])
    \/ ((exists m e,
           ai_model st = Some m /\ truth m = Raises e /\
           outcome_is = Raises e) /\ evs = [])
    \/ (is_true /\
        (exists r, outcome_is = Returns r /\
                   (status r = 400 \/ status r = 500)) /\
        evs = [EvGetJson])
    \/ (is_true /\
        exists a,
          (exists r, outcome_is = Returns r /\ status r = 500) /\
          evs = [EvGetJson; EvPredict a])
    \/ (is_true /\
        exists a,
          (exists r, outcome_is = Returns r /\ status r = 200) /\
          evs = [EvGetJson; EvPredict a; EvTime]).
Proof.
  clear jinja_render. cbv zeta.
  destruct (ai_model st) as [m|] eqn:Hm.
  - destruct (truth m) as [[|]|e] eqn:Ht.
    + rewrite (predict_view_true float_str truth st m request now Hm Ht).
      rewrite (predict_answer float_str st m request now Hm). cbn [fst snd].
      eexists; split; [reflexivity|].
      assert (Hl : exists m', Some m = Some m' /\ truth m' = Returns true)
        by now exists m.
      right; right. unfold answer.
      destruct request as [data|e];
        [|left; split; [exact Hl|split; [eexists; split; [reflexivity|now right]|reflexivity]]].
      destruct (py_get data "features") as [features|e];
        [|left; split; [exact Hl|split; [eexists; split; [reflexivity|now right]|reflexivity]]].
      destruct (invalid_features features) as [[|]|e];
        [left; split; [exact Hl|split; [eexists; split; [reflexivity|now left]|reflexivity]]|
        |left; split; [exact Hl|split; [eexists; split; [reflexivity|now right]|reflexivity]]].
      destruct (np_array float_str (PList [features])) as [a|e];
        [|left; split; [exact Hl|split; [eexists; split; [reflexivity|now right]|reflexivity]]].
      destruct (predict_fn m a) as [out|e];
        [|right; left; split; [exact Hl|exists a; split; [eexists; split; reflexivity|reflexivity]]].
      destruct (first_item out) as [x|e];
        [|right; left; split; [exact Hl|exists a; split; [eexists; split; reflexivity|reflexivity]]].
      destruct (list_getitem_np (CLASS_LABELS st) x) as [label|e];
        [|right; left; split; [exact Hl|exists a; split; [eexists; split; reflexivity|reflexivity]]].
      destruct (py_int x) as [i|e];
        [|right; left; split; [exact Hl|exists a; split; [eexists; split; reflexivity|reflexivity]]].
      right; right. split; [exact Hl|].
      exists a. split; [eexists; split; reflexivity|reflexivity].
    + rewrite (predict_view_false float_str truth st m request now Hm Ht).
      exists []. rewrite step_nil. split; [reflexivity|]. left.
      split; [right; now exists m|].
      split; [exists unavailable; now split|reflexivity].
    + rewrite (predict_view_raises float_str truth st m request now e Hm Ht).
      exists []. rewrite step_nil. split; [reflexivity|]. right; left.
      split; [now exists m, e|reflexivity].
  - rewrite (predict_view_unset float_str truth st request now Hm).
    exists []. rewrite step_nil. split; [reflexivity|]. left.
    split; [now left|]. split; [exists unavailable; now split|reflexivity].
Qed.

Lemma one_row v a :
  np_array float_str (PList [v]) = Returns a ->
  exists sh, nd_shape a = 1%nat :: sh.
Proof.
  unfold np_array. cbn [discover map].
  destruct (discover v) as [[sh cells]|e]; cbn [stack List.length];
    [|discriminate].
  destruct (NPY_MAXDIMS <? S (List.length sh))%nat; [discriminate|].
  destruct (cast_cells float_str cells) as [cells'|e]; [|discriminate].
  intros H. injection H as <-. now exists sh.
Qed.

(** X9.  The model is only ever given a batch of one row: whenever a call of
    the handler invokes [predict], the array it passes is the coercion of
    [[features]] for the features of the body, and its first dimension
    is 1. *)
Theorem model_sees_one_row st m d now a evs :
  ai_model st = Some m ->
  snd (predict float_str (Returns (PDict d)) now st) = step st evs ->
  In (EvPredict a) evs ->
  np_array float_str (PList [features_of d]) = Returns a /\
  exists sh, nd_shape a = 1%nat :: sh.
Proof.
  clear jinja_render. intros Hm Hsnd Hin.
  rewrite (predict_answer float_str st m _ now Hm) in Hsnd. cbn [snd] in Hsnd.
  assert (Hevs : snd (answer float_str (CLASS_LABELS st) m
                        (Returns (PDict d)) now) = evs).
  { unfold step in Hsnd. injection Hsnd as Hsnd.
    now apply app_inv_head in Hsnd. }
  clear Hsnd. subst evs. unfold answer in Hin. cbn [py_get] in Hin.
  fold (features_of d) in Hin.
  assert (Hno : ~ In (EvPredict a) [EvGetJson]).
  { intros [H|[]]. discriminate. }
  destruct (invalid_features (features_of d)) as [[|]|e];
    try (exfalso; exact (Hno Hin)).
  destruct (np_array float_str (PList [features_of d])) as [a'|e] eqn:Ha;
    [|exfalso; exact (Hno Hin)].
  assert (Haa : a' = a).
  { assert (Hin' : In (EvPredict a) [EvGetJson; EvPredict a'; EvTime]).
    { destruct (predict_fn m a') as [out|e];
        [destruct (first_item out) as [x|e];
         [destruct (list_getitem_np (CLASS_LABELS st) x) as [label|e];
          [destruct (py_int x) as [i|e]|]|]|];
        cbn [snd app] in Hin; cbn [In] in *; tauto. }
    cbn [In] in Hin'.
    destruct Hin' as [H|[H|[H|[]]]]; try discriminate.
    now injection H. }
  subst a'. split; [reflexivity|]. exact (one_row _ _ Ha).
Qed.

Lemma list_getitem_iris i label :
  list_getitem iris_labels i = Returns label ->
  -3 <= i < 3 /\ nth_error iris_labels (Z.to_nat (i mod 3)) = Some label.
Proof.
  unfold list_getitem. cbn [iris_labels List.length].
  intros H.
  assert (Hr : -3 <= i < 3).
  { destruct (i <? 0) eqn:E.
    - apply Z.ltb_lt in E.
      destruct ((i + Z.of_nat 3 <? 0) || (Z.of_nat 3 <=? i + Z.of_nat 3))
        eqn:E'; [discriminate|].
      apply orb_false_iff in E'. destruct E' as [E1 E2].
      apply Z.ltb_ge in E1. lia.
    - apply Z.ltb_ge in E.
      destruct ((i <? 0) || (Z.of_nat 3 <=? i)) eqn:E'; [discriminate|].
      apply orb_false_iff in E'. destruct E' as [_ E2].
      apply Z.leb_gt in E2. lia. }
  split; [exact Hr|].
  assert (Hc : i = -3 \/ i = -2 \/ i = -1 \/ i = 0 \/ i = 1 \/ i = 2) by lia.
  destruct Hc as [-> | [-> | [-> | [-> | [-> | ->]]]]];
    vm_compute in H; injection H as <-; reflexivity.
Qed.

(** X10.  A 200 answer always names a real class: its [prediction_index]
    [i] lies in [-3, 3), its [predicted_label] is the table's entry at
    [i mod 3], and its [timestamp] is the clock's reading. *)
Theorem success_names_a_class st request now r :
  CLASS_LABELS st = iris_labels ->
  fst (predict float_str request now st) = Returns r ->
  status r = 200 ->
  exists i label,
    -3 <= i < 3 /\
    nth_error iris_labels (Z.to_nat (i mod 3)) = Some label /\
    r = Response 200
          (Json (PDict [("success", PBool true);
                        ("prediction_index", PInt i);
                        ("predicted_label", PStr label);
                        ("timestamp", PInt now)])).
Proof.
  intros Hl Hr Hs.
  destruct (ai_model st) as [m|] eqn:Hm.
  - rewrite (predict_answer float_str st m request now Hm) in Hr.
    cbn [fst] in Hr. unfold answer in Hr. rewrite Hl in Hr.
    destruct request as [data|e];
      [|injection Hr as <-; discriminate].
    destruct (py_get data "features") as [features|e];
      [|injection Hr as <-; discriminate].
    destruct (invalid_features features) as [[|]|e];
      try (injection Hr as <-; discriminate).
    destruct (np_array float_str (PList [features])) as [a|e];
      [|injection Hr as <-; discriminate].
    destruct (predict_fn m a) as [out|e];
      [|injection Hr as <-; discriminate].
    destruct (first_item out) as [x|e]; [|injection Hr as <-; discriminate].
    destruct (list_getitem_np iris_labels x) as [label|e] eqn:Hx;
      [|injection Hr as <-; discriminate].
    destruct x as [i|f]; [|discriminate]. cbn [list_getitem_np] in Hx.
    cbn [py_int] in Hr. cbn [fst] in Hr. injection Hr as <-.
    destruct (list_getitem_iris i label Hx) as [Hi Hn].
    now exists i, label.
  - rewrite (predict_unset float_str st request now Hm) in Hr.
    injection Hr as <-. discriminate.
Qed.

(** X11.  A body that decodes to anything but a JSON object (null, a
    boolean, a number, a string, an array) is answered 500 with the
    [AttributeError] of the missing [get] method; the model is not called. *)
Theorem body_not_an_object st m data now :
  ai_model st = Some m ->
  (forall d, data <> PDict d) ->
  predict float_str (Returns data) now st =
    (Returns (Response 500
                (Json (PDict [("success", PBool false);
                              ("error",
                               PStr ("Prediction failed due to server error: '"
                                       ++ type_name data
                                       ++ "' object has no attribute 'get'"))]))),
     step st [EvGetJson]).
Proof.
  intros Hm Hd. rewrite (predict_answer float_str st m _ now Hm).
  unfold answer.
  destruct data; try reflexivity. now destruct (Hd items).
Qed.

(** X12.  Features that are [true] or a non-zero number pass the truth test
    and then fail in [len]: the answer is 500 with the [TypeError] of [len],
    not 400, and the model is not called. *)
Theorem features_without_length st m d now :
  ai_model st = Some m ->
  unsized (features_of d) = true ->
  predict float_str (Returns (PDict d)) now st =
    (Returns (Response 500
                (Json (PDict [("success", PBool false);
                              ("error",
                               PStr ("Prediction failed due to server error: object of type '"
                                       ++ type_name (features_of d)
                                       ++ "' has no len()"))]))),
     step st [EvGetJson]).
Proof.
  intros Hm Hu. rewrite (predict_answer float_str st m _ now Hm).
  unfold answer. cbn [py_get]. fold (features_of d).
  unfold invalid_features.
  destruct (features_of d); try discriminate; cbn [unsized] in Hu;
    rewrite Hu; reflexivity.
Qed.


(** X14.  A model that answers with an empty array is served a 500 with the
    [IndexError] of taking its first element. *)
Theorem empty_prediction_is_caught st m d now a :
  ai_model st = Some m ->
  py_len (features_of d) = Returns 4 ->
  np_array float_str (PList [features_of d]) = Returns a ->
  predict_fn m a = Returns [] ->
  predict float_str (Returns (PDict d)) now st =
    (Returns (Response 500
                (Json (PDict [("success", PBool false);
                              ("error",
                               PStr "Prediction failed due to server error: index 0 is out of bounds for axis 0 with size 0")]))),
     step st [EvGetJson; EvPredict a]).
Proof.
  intros Hm Hlen Ha Hout. rewrite (predict_answer float_str st m _ now Hm).
  unfold answer. cbn [py_get]. fold (features_of d).
  now rewrite (sized_four_valid _ Hlen), Ha, Hout.
Qed.

Lemma castable_is_cell v :
  castable_cell float_str v = true ->
  discover v = Returns ([], [v]) /\ cast_cell float_str v = Returns v.
Proof.
  destruct v; try discriminate; cbn [castable_cell discover cast_cell];
    intros H; try rewrite H; now split.
Qed.

Lemma number_cast v :
  is_number v = true ->
  discover v = Returns ([], [v]) /\
  cast_cell float_str v =
    if castable_number v then Returns v
    else Raises (Exn OverflowError "int too large to convert to float").
Proof. destruct v; try discriminate; intros _; now split. Qed.

(** X15.  Four JSON numbers are not always enough: when one of them is an
    integer too large for a double, the coercion raises [OverflowError]
    before the model is called and the answer is 500. *)
Theorem huge_integer_overflows st m d now x1 x2 x3 x4 :
  ai_model st = Some m ->
  features_of d = PList [x1; x2; x3; x4] ->
  forallb is_number [x1; x2; x3; x4] = true ->
  forallb castable_number [x1; x2; x3; x4] = false ->
  predict float_str (Returns (PDict d)) now st =
    (Returns (Response 500
                (Json (PDict [("success", PBool false);
                              ("error",
                               PStr "Prediction failed due to server error: int too large to convert to float")]))),
     step st [EvGetJson]).
Proof.
  intros Hm Hf Hnum Hbig. rewrite (predict_answer float_str st m _ now Hm).
  unfold answer. cbn [py_get]. fold (features_of d). rewrite Hf.
  rewrite (sized_four_valid (PList [x1; x2; x3; x4]) eq_refl).
  cbn [forallb] in Hnum. rewrite !andb_true_iff in Hnum.
  destruct Hnum as (N1 & N2 & N3 & N4 & _).
  destruct (number_cast _ N1) as [D1 C1], (number_cast _ N2) as [D2 C2],
    (number_cast _ N3) as [D3 C3], (number_cast _ N4) as [D4 C4].
  unfold np_array. cbn [discover map]. rewrite D1, D2, D3, D4.
  cbn [stack list_eqb_nat app List.length cast_cells].
  rewrite C1, C2, C3, C4. cbn [forallb] in Hbig.
  destruct (castable_number x1); [|reflexivity].
  destruct (castable_number x2); [|reflexivity].
  destruct (castable_number x3); [|reflexivity].
  destruct (castable_number x4); [discriminate|reflexivity].
Qed.

(** X16.  The elements need not be JSON numbers: four cells that are each
    null, a boolean, a number in range or a string [float()] accepts become
    the 1 x 4 matrix, and the model is called once with it. *)
Theorem lenient_cells_reach_the_model st m d now x1 x2 x3 x4 :
  ai_model st = Some m ->
  features_of d = PList [x1; x2; x3; x4] ->
  forallb (castable_cell float_str) [x1; x2; x3; x4] = true ->
  np_array float_str (PList [PList [x1; x2; x3; x4]]) =
    Returns (NdArray [1%nat; 4%nat] [x1; x2; x3; x4])
  /\ exists r rest,
       predict float_str (Returns (PDict d)) now st =
         (Returns r,
          step st (EvGetJson
                     :: EvPredict (NdArray [1%nat; 4%nat] [x1; x2; x3; x4])
                     :: rest))
       /\ count is_predict rest = 0%nat.
Proof.
  intros Hm Hf Hc.
  cbn [forallb] in Hc. rewrite !andb_true_iff in Hc.
  destruct Hc as (H1 & H2 & H3 & H4 & _).
  destruct (castable_is_cell _ H1) as [D1 C1],
    (castable_is_cell _ H2) as [D2 C2], (castable_is_cell _ H3) as [D3 C3],
    (castable_is_cell _ H4) as [D4 C4].
  assert (Ha : np_array float_str (PList [PList [x1; x2; x3; x4]]) =
               Returns (NdArray [1%nat; 4%nat] [x1; x2; x3; x4])).
  { unfold np_array. cbn [discover map]. rewrite D1, D2, D3, D4.
    cbn [stack list_eqb_nat app List.length cast_cells].
    now rewrite C1, C2, C3, C4. }
  split; [exact Ha|].
  rewrite (predict_answer float_str st m _ now Hm).
  unfold answer. cbn [py_get]. fold (features_of d). rewrite Hf.
  rewrite (sized_four_valid (PList [x1; x2; x3; x4]) eq_refl), Ha.
  destruct (predict_fn m _) as [out|e]; [|now exists (server_error e), []].
  destruct (first_item out) as [x|e]; [|now exists (server_error e), []].
  destruct (list_getitem_np (CLASS_LABELS st) x) as [label|e];
    [|now exists (server_error e), []].
  destruct (py_int x) as [i|e]; [|now exists (server_error e), []].
  now exists (success i label now), [EvTime].
Qed.

End Whole.

(** * Properties of the page's script *)

Section Client.

Variable b : browser.

Lemma try_block_cases res pg :
  (exists code d,
     res = FetchResponse code (BodyJson (PDict d)) /\
     response_ok code = true /\
     js_truthy (dict_lookup d "success") = true /\
     try_block b res pg =
       (Page (submit_disabled pg) (submit_text pg) (spinner_hidden pg)
             (Markup (result_markup
                        (js_text b (dict_lookup d "predicted_label"))
                        (js_text b (dict_lookup d "prediction_index"))))
             true false (error_text pg) (error_hidden pg),
        None))
  \/ (~ announces_success res /\
      exists message, try_block b res pg = (pg, Some message)).
Proof.
  unfold announces_success.
  destruct res as [message|code [doc|message]]; cbn [try_block].
  - right. split; [intros (c & d & H & _); discriminate|now exists message].
  - destruct (response_ok code) eqn:Hok; cbn [negb].
    + destruct doc as [| | | | | |d];
        try (right; split;
             [intros (c & d' & H & _); discriminate|
              cbn [js_member js_truthy]; eexists; reflexivity]).
      cbn [js_member].
      destruct (js_truthy (dict_lookup d "success")) eqn:Hs.
      * left. exists code, d. now repeat split.
      * right. split; [|eexists; reflexivity].
        intros (c & d' & H & _ & Hs'). injection H as _ <-. congruence.
    + right. split.
      * intros (c & d & H & Hok' & _). injection H as <- _. congruence.
      * destruct (js_member b doc "error"); eexists; reflexivity.
  - right. split; [intros (c & d & H & _); discriminate|].
    destruct (response_ok code); cbn [negb]; now exists message.
Qed.

(** X17.  Whatever the form holds and however the request ends (a network
    failure, a body that is not JSON, any status, any document), the submit
    control is locked while the request is in flight and is restored at the
    end: enabled, labelled 'Get Prediction', the spinner hidden. *)
Theorem submit_control_is_restored f net pg sent waiting final log :
  on_submit b f net pg = (sent, waiting, (final, log)) ->
  (submit_disabled waiting = true /\
   submit_text waiting = "Processing..." /\
   spinner_hidden waiting = false /\
   error_hidden waiting = true /\
   output waiting = Text "Sending data to model...")
  /\
  (submit_disabled final = false /\
   submit_text final = "Get Prediction" /\
   spinner_hidden final = true).
Proof.
  unfold on_submit, settle. intros H.
  destruct (try_block b (net (request_body b f)) (busy pg))
    as [pg' [message|]]; injection H as _ <- <- _; now repeat split.
Qed.

(** X18.  A submission ends in exactly one of two views, whatever the page
    showed before.  When the response announces success: the two values in the
    markup, in green and not in red, the error line hidden, nothing on the
    console.  In every other case: 'Prediction Failed' in red and not in
    green, the error line visible with 'Error: ' and the message, which also
    goes to the console. *)
Theorem one_view_or_the_other f net pg sent waiting final log :
  on_submit b f net pg = (sent, waiting, (final, log)) ->
  (announces_success (net sent) /\
   (exists label index,
      output final = Markup (result_markup label index)) /\
   output_green final = true /\ output_red final = false /\
   error_hidden final = true /\ log = [])
  \/
  (~ announces_success (net sent) /\
   exists message,
     output final = Text "Prediction Failed" /\
     output_green final = false /\ output_red final = true /\
     error_hidden final = false /\
     error_text final = "Error: " ++ message /\
     log = [message]).
Proof.
  unfold on_submit, settle. intros H.
  destruct (try_block_cases (net (request_body b f)) (busy pg))
    as [(code & d & Hres & Hok & Hs & Htry) | (Hno & message & Htry)];
    rewrite Htry in H; injection H as <- _ <- <-.
  - left. split; [now exists code, d|].
    split; [do 2 eexists; reflexivity|now repeat split].
  - right. split; [exact Hno|]. exists message. now repeat split.
Qed.

(** X22.  When an error response carries a JSON document without a usable
    [error] (the key absent, or its value null, false, zero or empty), the
    user is shown the status code instead. *)
Theorem status_code_is_the_fallback f net pg sent waiting final log code doc err :
  on_submit b f net pg = (sent, waiting, (final, log)) ->
  net sent = FetchResponse code (BodyJson doc) ->
  response_ok code = false ->
  js_member b doc "error" = Value err ->
  js_truthy err = false ->
  error_text final = "Error: HTTP error! Status: " ++ decimal code /\
  error_hidden final = false /\
  output final = Text "Prediction Failed".
Proof.
  unfold on_submit, settle. intros H Hnet Hok Herr Hfalsy.
  assert (Hsent : sent = request_body b f).
  { destruct (try_block b (net (request_body b f)) (busy pg)) as [? [?|]];
      now injection H as <- _ _ _. }
  subst sent. rewrite Hnet in H. cbn [try_block] in H.
  rewrite Hok in H. cbn [negb] in H. rewrite Herr in H.
  unfold js_or in H. rewrite Hfalsy in H. cbn [js_text] in H.
  injection H as _ <- _. now repeat split.
Qed.

End Client.

(** * The page and the service together *)

Section Together.

Variable b : browser.
Variable float_str : string -> bool.

Lemma predict_shapes st request now :
  exists r,
    fst (predict float_str request now st) = Returns r /\
    ((r = unavailable /\ ai_model st = None)
     \/ (r = invalid_input /\
         exists d, request = Returns (PDict d) /\
                   invalid_features (features_of d) = Returns true)
     \/ (exists e, r = server_error e)
     \/ (exists i label,
           r = success i label now /\
           list_getitem (CLASS_LABELS st) i = Returns label)).
Proof.
  destruct (ai_model st) as [m|] eqn:Hm.
  - rewrite (predict_answer float_str st m request now Hm). cbn [fst].
    eexists; split; [reflexivity|]. unfold answer.
    destruct request as [data|e]; [|right; right; left; now exists e].
    destruct (py_get data "features") as [features|e] eqn:Hget;
      [|right; right; left; now exists e].
    destruct (invalid_features features) as [[|]|e] eqn:Hinv;
      [|
      |right; right; left; now exists e].
    + right; left. split; [reflexivity|].
      destruct data; try discriminate. exists items. split; [reflexivity|].
      cbn [py_get] in Hget. injection Hget as <-. exact Hinv.
    + destruct (np_array float_str (PList [features])) as [a|e];
        [|right; right; left; now exists e].
      destruct (predict_fn m a) as [out|e];
        [|right; right; left; now exists e].
      destruct (first_item out) as [x|e];
        [|right; right; left; now exists e].
      destruct (list_getitem_np (CLASS_LABELS st) x) as [label|e] eqn:Hx;
        [|right; right; left; now exists e].
      destruct x as [i|f]; [|discriminate]. cbn [py_int].
      right; right; right. now exists i, label.
  - rewrite (predict_unset float_str st request now Hm). cbn [fst].
    eexists; split; [reflexivity|]. now left.
Qed.

Lemma sent_number_kind x :
  sent_number b x = PNone \/
  (exists n, sent_number b x = PInt n) \/
  sent_number b x = PFloat x.
Proof.
  unfold sent_number.
  destruct (Prim2SF x); try (now left);
    (destruct (js_integer x) as [n|]; [|now right; right];
     destruct (Z.abs n <=? 2 ^ 53); [right; left; now eexists|];
     destruct (Z.abs n <? 10 ^ 21); [right; left; now eexists|now right; right]).
Qed.

(** X19.  The page cannot be told its input is invalid: whatever the four
    fields hold, the body it sends is an object whose [features] is a list of
    exactly four entries, each [null] or a number, and a service with its model
    loaded never answers that body with 400. *)
Theorem page_request_is_never_rejected f st m now r :
  ai_model st = Some m ->
  fst (predict float_str (Returns (request_body b f)) now st) = Returns r ->
  (exists x1 x2 x3 x4,
     request_body b f = PDict [("features", PList [x1; x2; x3; x4])] /\
     Forall (fun x => x = PNone \/ is_number x = true) [x1; x2; x3; x4])
  /\ status r <> 400.
Proof.
  intros Hm Hr. split.
  - unfold request_body. do 4 eexists. split; [reflexivity|].
    repeat (apply Forall_cons;
            [match goal with
             | |- sent_number b ?x = _ \/ _ =>
                 destruct (sent_number_kind x) as [H | [[n H] | H]];
                 rewrite H; [now left | now right | now right]
             end|]).
    apply Forall_nil.
  - destruct (predict_shapes st (Returns (request_body b f)) now)
      as (r' & Hr' & Hcase).
    rewrite Hr in Hr'. injection Hr' as <-.
    destruct Hcase
      as [[-> Hn] | [[-> (d & Hd & Hinv)] | [[e ->] | (i & l & -> & _)]]].
    + cbn. discriminate.
    + exfalso. unfold request_body in Hd. injection Hd as <-.
      cbv [features_of dict_lookup] in Hinv.
      rewrite String.eqb_refl in Hinv.
      erewrite sized_four_valid in Hinv by reflexivity. discriminate.
    + cbn. discriminate.
    + cbn. discriminate.
Qed.

(** X20.  The server's error reaches the user word for word: whenever the
    service answers the page's request with a status other than 200 (503,
    400 or 500), the page ends in the failure view and its error line reads
    'Error: ' followed by the [error] string of the server's document. *)
Theorem page_shows_server_error f net st now pg r sent waiting final log :
  carries b float_str now st net ->
  on_submit b f net pg = (sent, waiting, (final, log)) ->
  fst (predict float_str (Returns sent) now st) = Returns r ->
  status r <> 200 ->
  exists message,
    error_of r = Some message /\
    error_text final = "Error: " ++ message /\
    error_hidden final = false /\
    output final = Text "Prediction Failed" /\
    output_red final = true /\ output_green final = false /\
    submit_disabled final = false /\
    log = [message].
Proof.
  intros Hnet Hsub Hr Hstatus.
  pose proof (Hnet sent r Hr) as Hreply.
  unfold on_submit, settle in Hsub.
  assert (Hsent : sent = request_body b f).
  { destruct (try_block b (net (request_body b f)) (busy pg)) as [? [?|]];
      now injection Hsub as <- _ _ _. }
  subst sent. rewrite Hreply in Hsub.
  destruct (predict_shapes st (Returns (request_body b f)) now)
    as (r' & Hr' & Hcase).
  rewrite Hr in Hr'. injection Hr' as <-.
  destruct Hcase as [[-> _] | [[-> _] | [[e ->] | (i & l & -> & _)]]];
    [| | |now destruct Hstatus];
    cbn in Hsub; injection Hsub as <- <- <-;
    eexists; (split; [reflexivity|now repeat split]).
Qed.

(** X21.  A prediction reaches the user as the service made it: whenever the
    service, its label table as line 14 binds it, answers the page's request
    with 200, the page ends in the success view and shows one of the three
    class names and its index, in [-3, 3), in green, with the error line
    hidden. *)
Theorem page_shows_prediction f net st now pg r sent waiting final log :
  carries b float_str now st net ->
  CLASS_LABELS st = iris_labels ->
  on_submit b f net pg = (sent, waiting, (final, log)) ->
  fst (predict float_str (Returns sent) now st) = Returns r ->
  status r = 200 ->
  exists i label,
    -3 <= i < 3 /\ In label iris_labels /\
    r = success i label now /\
    output final = Markup (result_markup label (decimal i)) /\
    output_green final = true /\ output_red final = false /\
    error_hidden final = true /\
    submit_disabled final = false /\
    log = [].
Proof.
  intros Hnet Hl Hsub Hr Hstatus.
  pose proof (Hnet sent r Hr) as Hreply.
  unfold on_submit, settle in Hsub.
  assert (Hsent : sent = request_body b f).
  { destruct (try_block b (net (request_body b f)) (busy pg)) as [? [?|]];
      now injection Hsub as <- _ _ _. }
  subst sent. rewrite Hreply in Hsub.
  destruct (predict_shapes st (Returns (request_body b f)) now)
    as (r' & Hr' & Hcase).
  rewrite Hr in Hr'. injection Hr' as <-.
  destruct Hcase as [[-> _] | [[-> _] | [[e ->] | (i & l & -> & Hget)]]];
    try discriminate.
  rewrite Hl in Hget.
  destruct (list_getitem_iris i l Hget) as [Hi Hn].
  exists i, l. split; [exact Hi|]. split; [exact (nth_error_In _ _ Hn)|].
  split; [reflexivity|].
  assert (Hdec : js_text b (Some (PInt i)) = decimal i).
  { cbn [js_text]. destruct (Z.abs i <=? 2 ^ 53) eqn:E; [reflexivity|].
    apply Z.leb_gt in E. lia. }
  cbn -[js_text result_markup decimal] in Hsub.
  rewrite Hdec in Hsub. injection Hsub as <- <- <-.
  now repeat split.
Qed.

End Together.

(** ** Instances of the further properties *)

(** The service with a model that always answers class 2, right after
    start-up. *)
Definition loaded : process := boot (good_host (constant_model (NpInt 2))).

(** A machine on which the file exists and does not unpickle. *)
Definition corrupt_host : host :=
  Host (fun _ => true)
       (fun _ => Raises (Exn (OtherError "UnpicklingError") "invalid load key"))
.

Definition literal_jinja (source : string) : outcome string := Returns source.

(** A browser that reads the four default values of the form. *)
Definition sample_browser : browser :=
  Browser
    (fun s =>
       if String.eqb s "5.1" then 5.1%float
       else if String.eqb s "3.5" then 3.5%float
       else if String.eqb s "1.4" then 1.4%float
       else if String.eqb s "0.2" then 0.2%float
       else nan)
    (fun _ => 0)
    (fun _ => "?")
    (fun k => "Cannot read properties of null (reading '" ++ k ++ "')")
    (fun _ => "Unexpected token")
.

Definition default_form : form := Form "5.1" "3.5" "1.4" "0.2".

(** The network between the page and the service in state [st]. *)
Definition wire (st : process) (now : Z) (sent : pyval) : fetched :=
  match fst (predict plain_decimal (Returns sent) now st) with
  | Returns r => reply sample_browser r
  | Raises e => FetchRejected (exn_msg e)
  end.

Lemma wire_carries st now :
  carries sample_browser plain_decimal now st (wire st now).
Proof. intros sent r Hr. unfold wire. now rewrite Hr. Qed.

Lemma startup_missing_file_witness :
  boot bare_host =
    Process iris_labels None
      [EvAssign "CLASS_LABELS"; EvAssign "ai_model";
       EvPrint "Error loading model: Model file 'model.joblib' not found. Please run 'create_model.py' first.";
       EvPrint "The API will not function until the model is correctly saved."].
Proof. exact (startup_missing_file bare_host eq_refl). Defined.

Lemma startup_load_raises_witness :
  boot corrupt_host =
    Process iris_labels None
      [EvAssign "CLASS_LABELS"; EvAssign "ai_model";
       EvPrint "Error loading model: invalid load key";
       EvPrint "The API will not function until the model is correctly saved."].
Proof.
  exact (startup_load_raises corrupt_host
           (Exn (OtherError "UnpicklingError") "invalid load key")
           eq_refl eq_refl).
Defined.

Lemma serve_keeps_no_memory_witness :
  nth_error
    (fst (serve plain_decimal literal_jinja
            [PostPredict (post (PInt 5)) 1700000000; GetIndex;
             PostPredict (post default_features) 1700000060]
            (boot (good_host (constant_model (NpInt 2)))))) 2 =
    Some (fst (handle plain_decimal literal_jinja
                 (PostPredict (post default_features) 1700000060)
                 (boot (good_host (constant_model (NpInt 2)))))).
Proof.
  exact (serve_keeps_no_memory plain_decimal literal_jinja
           (good_host (constant_model (NpInt 2)))
           [PostPredict (post (PInt 5)) 1700000000; GetIndex;
            PostPredict (post default_features) 1700000060]
           2 (PostPredict (post default_features) 1700000060) eq_refl).
Defined.

Lemma unavailable_is_latched_witness :
  nth_error
    (fst (serve plain_decimal literal_jinja
            [PostPredict (post default_features) 1700000000; GetIndex;
             PostPredict (post default_features) 1700000060]
            (boot bare_host))) 2 =
    Some (Returns (Response 503
                     (Json (PDict [("error",
                                    PStr "Model not loaded on server.")])))).
Proof.
  exact (unavailable_is_latched plain_decimal literal_jinja bare_host
           [PostPredict (post default_features) 1700000000; GetIndex;
            PostPredict (post default_features) 1700000060]
           2 (post default_features) 1700000060 eq_refl eq_refl).
Defined.

(** X6 on a handle bound to a false object (an empty list, say): the answer
    is the 503 document although an object was loaded. *)
Lemma predict_four_answers_witness :
  status unavailable = 503 <->
  (ai_model loaded = None \/
   exists m,
     ai_model loaded = Some m /\
     (fun _ : model => Returns false) m = Returns false).
Proof.
  exact (proj1 (predict_four_answers plain_decimal (fun _ => Returns false)
                  loaded (post default_features) 1700000000 unavailable
                  eq_refl)).
Defined.

Lemma bad_request_exactly_when_witness :
  (exists doc,
     fst (predict plain_decimal (post (PList [PInt 1; PInt 2; PInt 3]))
            1700000000 loaded) = Returns (Response 400 doc))
  <->
  (exists d,
     post (PList [PInt 1; PInt 2; PInt 3]) = Returns (PDict d) /\
     (truthy (features_of d) = false \/
      exists n, py_len (features_of d) = Returns n /\ n <> 4)).
Proof.
  exact (bad_request_exactly_when plain_decimal loaded
           (constant_model (NpInt 2))
           (post (PList [PInt 1; PInt 2; PInt 3])) 1700000000 eq_refl).
Defined.

Lemma model_sees_one_row_witness :
  np_array plain_decimal
    (PList [features_of [("features", default_features)]]) =
    Returns (NdArray [1%nat; 4%nat]
               [PFloat 5.1; PFloat 3.5; PFloat 1.4; PFloat 0.2])
  /\ exists sh,
       nd_shape (NdArray [1%nat; 4%nat]
                   [PFloat 5.1; PFloat 3.5; PFloat 1.4; PFloat 0.2])
       = 1%nat :: sh.
Proof.
  apply (model_sees_one_row plain_decimal loaded (constant_model (NpInt 2))
           [("features", default_features)] 1700000000
           (NdArray [1%nat; 4%nat]
              [PFloat 5.1; PFloat 3.5; PFloat 1.4; PFloat 0.2])
           [EvGetJson;
            EvPredict (NdArray [1%nat; 4%nat]
                         [PFloat 5.1; PFloat 3.5; PFloat 1.4; PFloat 0.2]);
            EvTime]).
  - reflexivity.
  - reflexivity.
  - right. left. reflexivity.
Defined.

Lemma success_names_a_class_witness :
  exists i label,
    -3 <= i < 3 /\
    nth_error iris_labels (Z.to_nat (i mod 3)) = Some label /\
    success 2 "Virginica" 1700000000 =
      Response 200
        (Json (PDict [("success", PBool true);
                      ("prediction_index", PInt i);
                      ("predicted_label", PStr label);
                      ("timestamp", PInt 1700000000)])).
Proof.
  exact (success_names_a_class plain_decimal loaded (post default_features)
           1700000000 (success 2 "Virginica" 1700000000)
           eq_refl eq_refl eq_refl).
Defined.

Lemma body_not_an_object_witness :
  predict plain_decimal (Returns (PList [PInt 1; PInt 2])) 1700000000 loaded =
    (Returns (Response 500
                (Json (PDict [("success", PBool false);
                              ("error",
                               PStr ("Prediction failed due to server error: '"
                                       ++ type_name (PList [PInt 1; PInt 2])
                                       ++ "' object has no attribute 'get'"))]))),
     step loaded [EvGetJson]).
Proof.
  apply (body_not_an_object plain_decimal loaded (constant_model (NpInt 2))
           (PList [PInt 1; PInt 2]) 1700000000 eq_refl).
  intros d. discriminate.
Defined.

Lemma features_without_length_witness :
  predict plain_decimal (Returns (PDict [("features", PBool true)]))
    1700000000 loaded =
    (Returns (Response 500
                (Json (PDict [("success", PBool false);
                              ("error",
                               PStr ("Prediction failed due to server error: object of type '"
                                       ++ type_name
                                            (features_of
                                               [("features", PBool true)])
                                       ++ "' has no len()"))]))),
     step loaded [EvGetJson]).
Proof.
  exact (features_without_length plain_decimal loaded
           (constant_model (NpInt 2)) [("features", PBool true)] 1700000000
           eq_refl eq_refl).
Defined.


Lemma empty_prediction_is_caught_witness :
  predict plain_decimal (Returns (PDict [("features", default_features)]))
    1700000000 (boot (good_host (Model (fun _ => Returns [])))) =
    (Returns (Response 500
                (Json (PDict [("success", PBool false);
                              ("error",
                               PStr "Prediction failed due to server error: index 0 is out of bounds for axis 0 with size 0")]))),
     step (boot (good_host (Model (fun _ => Returns []))))
       [EvGetJson;
        EvPredict (NdArray [1%nat; 4%nat]
                     [PFloat 5.1; PFloat 3.5; PFloat 1.4; PFloat 0.2])]).
Proof.
  exact (empty_prediction_is_caught plain_decimal
           (boot (good_host (Model (fun _ => Returns []))))
           (Model (fun _ => Returns []))
           [("features", default_features)] 1700000000
           (NdArray [1%nat; 4%nat]
              [PFloat 5.1; PFloat 3.5; PFloat 1.4; PFloat 0.2])
           eq_refl eq_refl eq_refl eq_refl).
Defined.

Lemma huge_integer_overflows_witness :
  predict plain_decimal
    (Returns (PDict [("features",
                      PList [PInt (2 ^ 1024); PInt 3; PInt 1; PInt 0])]))
    1700000000 loaded =
    (Returns (Response 500
                (Json (PDict [("success", PBool false);
                              ("error",
                               PStr "Prediction failed due to server error: int too large to convert to float")]))),
     step loaded [EvGetJson]).
Proof.
  exact (huge_integer_overflows plain_decimal loaded
           (constant_model (NpInt 2))
           [("features", PList [PInt (2 ^ 1024); PInt 3; PInt 1; PInt 0])]
           1700000000 (PInt (2 ^ 1024)) (PInt 3) (PInt 1) (PInt 0)
           eq_refl eq_refl eq_refl eq_refl).
Defined.

Lemma lenient_cells_reach_the_model_witness :
  np_array plain_decimal
    (PList [PList [PBool true; PStr "3.5"; PInt 1; PFloat 0.2]]) =
    Returns (NdArray [1%nat; 4%nat]
               [PBool true; PStr "3.5"; PInt 1; PFloat 0.2]).
Proof.
  exact (proj1 (lenient_cells_reach_the_model plain_decimal loaded
                  (constant_model (NpInt 2))
                  [("features",
                    PList [PBool true; PStr "3.5"; PInt 1; PFloat 0.2])]
                  1700000000
                  (PBool true) (PStr "3.5") (PInt 1) (PFloat 0.2)
                  eq_refl eq_refl eq_refl)).
Defined.

(** One submission of the default form from the freshly loaded page, against
    the service in state [st]. *)
Definition sample_run (st : process) (now : Z)
  : pyval * page * (page * list string) :=
  on_submit sample_browser default_form (wire st now) loaded_page.

Definition sent_of (run : pyval * page * (page * list string)) : pyval :=
  fst (fst run).

Definition waiting_of (run : pyval * page * (page * list string)) : page :=
  snd (fst run).

Definition final_of (run : pyval * page * (page * list string)) : page :=
  fst (snd run).

Definition console_of (run : pyval * page * (page * list string))
  : list string :=
  snd (snd run).

Example default_form_is_sent :
  sent_of (sample_run loaded 1700000000) =
    PDict [("features", default_features)].
Proof. reflexivity. Qed.

Lemma submit_control_is_restored_witness :
  submit_disabled (waiting_of (sample_run loaded 1700000000)) = true /\
  submit_disabled (final_of (sample_run loaded 1700000000)) = false /\
  submit_text (final_of (sample_run loaded 1700000000)) = "Get Prediction".
Proof.
  destruct (submit_control_is_restored sample_browser default_form
              (wire loaded 1700000000) loaded_page
              (sent_of (sample_run loaded 1700000000))
              (waiting_of (sample_run loaded 1700000000))
              (final_of (sample_run loaded 1700000000))
              (console_of (sample_run loaded 1700000000))
              eq_refl)
    as [(H1 & _) (H2 & H3 & _)].
  now repeat split.
Defined.

Lemma one_view_or_the_other_witness :
  (announces_success
     (wire loaded 1700000000 (sent_of (sample_run loaded 1700000000))) /\
   (exists label index,
      output (final_of (sample_run loaded 1700000000)) =
        Markup (result_markup label index)) /\
   output_green (final_of (sample_run loaded 1700000000)) = true /\
   output_red (final_of (sample_run loaded 1700000000)) = false /\
   error_hidden (final_of (sample_run loaded 1700000000)) = true /\
   console_of (sample_run loaded 1700000000) = [])
  \/
  (~ announces_success
       (wire loaded 1700000000 (sent_of (sample_run loaded 1700000000))) /\
   exists message,
     output (final_of (sample_run loaded 1700000000)) =
       Text "Prediction Failed" /\
     output_green (final_of (sample_run loaded 1700000000)) = false /\
     output_red (final_of (sample_run loaded 1700000000)) = true /\
     error_hidden (final_of (sample_run loaded 1700000000)) = false /\
     error_text (final_of (sample_run loaded 1700000000)) =
       "Error: " ++ message /\
     console_of (sample_run loaded 1700000000) = [message]).
Proof.
  exact (one_view_or_the_other sample_browser default_form
           (wire loaded 1700000000) loaded_page
           (sent_of (sample_run loaded 1700000000))
           (waiting_of (sample_run loaded 1700000000))
           (final_of (sample_run loaded 1700000000))
           (console_of (sample_run loaded 1700000000))
           eq_refl).
Defined.

Lemma status_code_is_the_fallback_witness :
  error_text
    (final_of (on_submit sample_browser default_form
                 (fun _ => FetchResponse 502 (BodyJson (PDict [])))
                 loaded_page)) =
    "Error: HTTP error! Status: " ++ decimal 502.
Proof.
  exact (proj1 (status_code_is_the_fallback sample_browser default_form
                  (fun _ => FetchResponse 502 (BodyJson (PDict [])))
                  loaded_page
                  (sent_of (sample_run loaded 1700000000))
                  (busy loaded_page)
                  (final_of (on_submit sample_browser default_form
                               (fun _ => FetchResponse 502 (BodyJson (PDict [])))
                               loaded_page))
                  ["HTTP error! Status: 502"]
                  502 (PDict []) None
                  eq_refl eq_refl eq_refl eq_refl eq_refl)).
Defined.

Lemma page_request_is_never_rejected_witness :
  status (success 2 "Virginica" 1700000000) <> 400.
Proof.
  exact (proj2 (page_request_is_never_rejected sample_browser plain_decimal
                  default_form loaded (constant_model (NpInt 2)) 1700000000
                  (success 2 "Virginica" 1700000000) eq_refl eq_refl)).
Defined.

Lemma page_shows_server_error_witness :
  exists message,
    error_of unavailable = Some message /\
    error_text (final_of (sample_run (boot bare_host) 1700000000)) =
      "Error: " ++ message /\
    error_hidden (final_of (sample_run (boot bare_host) 1700000000)) = false /\
    output (final_of (sample_run (boot bare_host) 1700000000)) =
      Text "Prediction Failed" /\
    output_red (final_of (sample_run (boot bare_host) 1700000000)) = true /\
    output_green (final_of (sample_run (boot bare_host) 1700000000)) = false /\
    submit_disabled (final_of (sample_run (boot bare_host) 1700000000))
      = false /\
    console_of (sample_run (boot bare_host) 1700000000) = [message].
Proof.
  apply (page_shows_server_error sample_browser plain_decimal default_form
           (wire (boot bare_host) 1700000000) (boot bare_host) 1700000000
           loaded_page unavailable
           (sent_of (sample_run (boot bare_host) 1700000000))
           (waiting_of (sample_run (boot bare_host) 1700000000))
           (final_of (sample_run (boot bare_host) 1700000000))
           (console_of (sample_run (boot bare_host) 1700000000))).
  - apply wire_carries.
  - reflexivity.
  - reflexivity.
  - discriminate.
Defined.

Lemma page_shows_prediction_witness :
  exists i label,
    -3 <= i < 3 /\ In label iris_labels /\
    success 2 "Virginica" 1700000000 = success i label 1700000000 /\
    output (final_of (sample_run loaded 1700000000)) =
      Markup (result_markup label (decimal i)) /\
    output_green (final_of (sample_run loaded 1700000000)) = true /\
    output_red (final_of (sample_run loaded 1700000000)) = false /\
    error_hidden (final_of (sample_run loaded 1700000000)) = true /\
    submit_disabled (final_of (sample_run loaded 1700000000)) = false /\
    console_of (sample_run loaded 1700000000) = [].
Proof.
  apply (page_shows_prediction sample_browser plain_decimal default_form
           (wire loaded 1700000000) loaded 1700000000 loaded_page
           (success 2 "Virginica" 1700000000)
           (sent_of (sample_run loaded 1700000000))
           (waiting_of (sample_run loaded 1700000000))
           (final_of (sample_run loaded 1700000000))
           (console_of (sample_run loaded 1700000000))).
  - apply wire_carries.
  - reflexivity.
  - reflexivity.
  - reflexivity.
  - reflexivity.
Defined.

Example default_submission_shows_virginica :
  output (final_of (sample_run loaded 1700000000)) =
    Markup (result_markup "Virginica" "2").
Proof. reflexivity. Qed.
